(** * Signal-timing optimisation drivers: a shallow embedding

    The two Python scripts [bayesian_optimization.py] and
    [final_evaluation.py] are embedded as Rocq functions:

    - Python [float] is IEEE 754 binary64, taken from the Standard
      Library's [SpecFloat] (53 bits of precision, exponent bound 1024);
    - Python [int] is [Z];
    - exceptions are an error monad ([result]);
    - the files the scripts exchange with the simulator live in a finite
      map from paths to contents;
    - the traffic simulator, [numpy.mean] and [float(str)] are external to
      the repository and enter as type-class parameters. *)

From Stdlib Require Import ZArith Lia String Ascii List SpecFloat.
From Stdlib Require Import DecimalString DecimalZ DecimalPos.
From stdpp Require Import gmap strings list.
From Equations Require Import Equations.

Set Warnings "-register-all".
Open Scope Z_scope.

(** ** Exceptions and the error monad *)

Inductive exn :=
  | FileNotFoundError
  | ParseError
  | TypeError
  | ValueError
  | OverflowError
  | FatalTraCIError.

Inductive result (A : Type) :=
  | Ok (a : A)
  | Raise (e : exn).
Arguments Ok {A} a.
Arguments Raise {A} e.

#[global] Instance result_ret : MRet result := fun A a => Ok a.
#[global] Instance result_bind : MBind result := fun A B k m =>
  match m with
  | Ok a => k a
  | Raise e => Raise e
  end.

(** [try: m except (FileNotFoundError, ET.ParseError): handler] *)
Definition try_except_report {A} (m : result A) (handler : A) : result A :=
  match m with
  | Raise FileNotFoundError => Ok handler
  | Raise ParseError => Ok handler
  | other => other
  end.

(** ** Binary64 floating point *)

Module Float64.
Definition prec : Z := 53.
Definition emax : Z := 1024.

Definition f64 := spec_float.

Definition valid (x : f64) : bool := valid_binary prec emax x.
Definition mul (x y : f64) : f64 := SFmul prec emax x y.
Definition div (x y : f64) : f64 := SFdiv prec emax x y.
Definition add (x y : f64) : f64 := SFadd prec emax x y.
Definition ltb (x y : f64) : bool := SFltb x y.
Definition leb (x y : f64) : bool := SFleb x y.

(** Round-to-nearest-even conversion of an integer. *)
Definition of_Z (z : Z) : f64 := binary_normalize prec emax z 0 false.

(** The signed integer mantissa of a finite number. *)
Definition signed_mantissa (s : bool) (m : positive) : Z :=
  cond_Zopp s (Zpos m).

(** The nearest doubles to 3/10 and 7/10: the values of the Python
    literals [0.3] and [0.7]. *)
Definition lit_0_3 : f64 := S754_finite false 5404319552844595 (-54).
Definition lit_0_7 : f64 := S754_finite false 6305039478318694 (-53).
Definition lit_0_5 : f64 := S754_finite false 4503599627370496 (-53).
End Float64.
Import Float64.

(** ** Python numbers and builtins *)

Inductive pynum :=
  | PyInt (z : Z)
  | PyFloat (x : f64).

(** [float(z)] for an int [z]: correctly rounded, [OverflowError] when the
    int is too large. *)
Definition float_of_int (z : Z) : result f64 :=
  match of_Z z with
  | S754_infinity _ => Raise OverflowError
  | x => Ok x
  end.

(** [z * x] for an int [z] and a float [x]. *)
Definition mul_int_float (z : Z) (x : f64) : result f64 :=
  y ← float_of_int z; Ok (mul y x).

(** [int(x)] for a float [x]: truncation toward zero. *)
Definition int_of_float (x : f64) : result Z :=
  match x with
  | S754_nan => Raise ValueError
  | S754_infinity _ => Raise OverflowError
  | S754_zero _ => Ok 0
  | S754_finite s m e =>
      Ok (if 0 <=? e then signed_mantissa s m * 2 ^ e
          else Z.quot (signed_mantissa s m) (2 ^ (- e)))
  end.

(** [math.floor(x)]: the largest integer not above [x]; the reference the
    truncation is compared with. *)
Definition math_floor (x : f64) : result Z :=
  match x with
  | S754_nan => Raise ValueError
  | S754_infinity _ => Raise OverflowError
  | S754_zero _ => Ok 0
  | S754_finite s m e =>
      Ok (if 0 <=? e then signed_mantissa s m * 2 ^ e
          else Z.div (signed_mantissa s m) (2 ^ (- e)))
  end.

(** [str(z)] for an int. *)
Definition py_str (z : Z) : string := NilZero.string_of_int (Z.to_int z).

(** The float a number compares as against a float operand. *)
Definition as_float (a : pynum) : f64 :=
  match a with
  | PyInt z => of_Z z
  | PyFloat x => x
  end.

(** [a > b]: exact on two ints, binary64 comparison otherwise (the int
    operand is converted). A comparison with NaN is false. *)
Definition py_gt (a b : pynum) : bool :=
  match a, b with
  | PyInt x, PyInt y => y <? x
  | _, _ => ltb (as_float b) (as_float a)
  end.

(** [max(l)]: the first item no later item is greater than;
    [ValueError] on an empty list. *)
Definition py_max (l : list pynum) : result pynum :=
  match l with
  | [] => Raise ValueError
  | first :: rest =>
      Ok (fold_left (fun maxitem item => if py_gt item maxitem then item else maxitem)
                    rest first)
  end.

(** [bool(s)] for [s : Optional[str]]: [None] and the empty string are falsy. *)
Definition truthy (s : option string) : bool :=
  match s with
  | None => false
  | Some EmptyString => false
  | Some _ => true
  end.

(** ** External numeric functions *)

Class Numeric := {
  (** [float(s)] for a string; [None] stands for [ValueError]. *)
  float_of_str : string -> option f64;
  (** [numpy.mean] of a non-empty list of floats. *)
  np_mean : list f64 -> f64
}.

(** [float(v)] for [v : Optional[str]], as returned by [Element.get]. *)
Definition py_float {N : Numeric} (v : option string) : result f64 :=
  match v with
  | None => Raise TypeError
  | Some s =>
      match float_of_str s with
      | Some x => Ok x
      | None => Raise ValueError
      end
  end.

(** ** XML element trees and files *)

Module ET.
Inductive element :=
  Element (tag : string) (attrib : list (string * string)) (children : list element).

Definition tag (e : element) : string := let 'Element t _ _ := e in t.
Definition attrib (e : element) : list (string * string) := let 'Element _ a _ := e in a.
Definition children (e : element) : list element := let 'Element _ _ c := e in c.

(** [ET.SubElement(parent, tag, **attrib)] appends a child; here the
    children of an element are assembled as a list and attached at once. *)
Definition SubElement (tag : string) (attrib : list (string * string))
    (children : list element) : element :=
  Element tag attrib children.

(** [e.get(key)] *)
Fixpoint lookup_attr (key : string) (l : list (string * string)) : option string :=
  match l with
  | [] => None
  | (k, v) :: rest => if String.eqb k key then Some v else lookup_attr key rest
  end.
Definition get (e : element) (key : string) : option string :=
  lookup_attr key (attrib e).

(** [e.findall(tag)]: the direct children with that tag, in document order. *)
Definition findall (e : element) (t : string) : list element :=
  List.filter (fun c => String.eqb (tag c) t) (children e).

(** What a path holds: a well-formed XML document or anything else. *)
Inductive file :=
  | XmlFile (root : element)
  | OtherFile (content : string).

(** [ET.parse(path).getroot()] *)
Definition parse (w : gmap string file) (path : string) : result element :=
  match w !! path with
  | None => Raise FileNotFoundError
  | Some (OtherFile _) => Raise ParseError
  | Some (XmlFile root) => Ok root
  end.

(** [ET.ElementTree(root).write(path)] *)
Definition write (root : element) (path : string) (w : gmap string file)
    : gmap string file :=
  <[path := XmlFile root]> w.
End ET.

Abbreviation files := (gmap string ET.file).

(** ** The simulator session (TraCI) *)

Class Traci := {
  session : Type;
  (** [traci.start(cmd)]: launches the simulator, which reads its inputs. *)
  traci_start : list string -> files -> result session;
  (** [traci.simulationStep()] *)
  simulationStep : session -> result session;
  (** [traci.simulation.getMinExpectedNumber()] *)
  getMinExpectedNumber : session -> Z;
  (** [traci.close()]: the simulator exits, leaving its output files. *)
  traci_close : session -> files -> files
}.

(** What a stepping loop did: the session it ended with (or the exception a
    step raised), the final value of [step], and how many times
    [traci.simulationStep] was called. *)
Record episode {T : Traci} := Episode {
  ep_session : result session;
  ep_step : Z;
  ep_calls : nat
}.

(** [[f(x) for x in l]] with a body that may raise. *)
Fixpoint comprehension {A B} (f : A -> result B) (l : list A) : result (list B) :=
  match l with
  | [] => Ok []
  | x :: rest => y ← f x; ys ← comprehension f rest; Ok (y :: ys)
  end.

(** [[float(trip.get('waitingTime')) for trip in root.findall('tripinfo')]] *)
Definition waiting_times {N : Numeric} (root : ET.element) : result (list f64) :=
  comprehension (fun trip => py_float (ET.get trip "waitingTime"))
                (ET.findall root "tripinfo").

(** ** bayesian_optimization.py *)

Module bayesian_optimization.

Definition MAX_SIM_STEPS : Z := 3600.

Definition SCENARIOS : list string :=
  ["grid_normal.sumocfg"; "grid_highstress.sumocfg"; "grid_disrupted.sumocfg"].

Definition sumo_binary : string := "sumo".

(** Lines 32-34 of [generate_tl_program]: the two green durations. *)
Definition green_times (cycle_length : Z) (ns_green_ratio : f64) : result (Z * Z) :=
  let green_time := cycle_length - 6 in
  product ← mul_int_float green_time ns_green_ratio;
  ns_green_time ← int_of_float product;
  let ew_green_time := green_time - ns_green_time in
  Ok (ns_green_time, ew_green_time).

Definition phase (duration state : string) : ET.element :=
  ET.SubElement "phase" [("duration", duration); ("state", state)] [].

Definition tl_logic (i j : Z) (ns_green_time ew_green_time : Z) : ET.element :=
  let tl_id := ("J_" +:+ py_str i +:+ "_" +:+ py_str j)%string in
  ET.SubElement "tlLogic"
    [("id", tl_id); ("type", "static"); ("programID", "bo_plan"); ("offset", "0")]
    [ phase (py_str ns_green_time) "GGggrrrrGGggrrrr";
      phase "3" "yyyyrrrryyyyrrrr";
      phase (py_str ew_green_time) "rrrrGGggrrrrGGgg";
      phase "3" "rrrryyyyrrrryyyy" ].

Definition range3 : list Z := [0; 1; 2].

Definition tl_document (ns_green_time ew_green_time : Z) : ET.element :=
  ET.Element "additional" []
    (i ← range3; j ← range3; [tl_logic i j ns_green_time ew_green_time]).

Definition generate_tl_program (cycle_length : Z) (ns_green_ratio : f64)
    (file_path : string) (w : files) : result files :=
  '(ns_green_time, ew_green_time) ← green_times cycle_length ns_green_ratio;
  Ok (ET.write (tl_document ns_green_time ew_green_time) file_path w).

Section Objective.
Context {T : Traci} {N : Numeric}.

(** Lines 80-86: the stepping loop, from the current [step]. *)
Equations? simulation_loop (step : Z) (calls : nat) (s : session) : episode
  by wf (Z.to_nat (MAX_SIM_STEPS - step)) lt :=
simulation_loop step calls s with Z_lt_dec step MAX_SIM_STEPS => {
  | right _ := Episode _ (Ok s) step calls;
  | left _ with simulationStep s => {
    | Raise e := Episode _ (Raise e) step (S calls);
    | Ok s' with (getMinExpectedNumber s' =? 0) && (100 <? step) => {
      | true := Episode _ (Ok s') step (S calls);
      | false := simulation_loop (step + 1) (S calls) s' } } }.
Proof. lia. Qed.

(** Lines 91-101: the score of the trip report the episode left. *)
Definition scenario_score (w : files) : result pynum :=
  try_except_report
    (root ← ET.parse w "temp_tripinfo.xml";
     wait_time ← waiting_times root;
     match wait_time with
     | [] => Ok (PyInt (MAX_SIM_STEPS * 10))
     | _ => Ok (PyFloat (np_mean wait_time))
     end)
    (PyInt (MAX_SIM_STEPS * 10)).

Definition sumo_cmd (scenario_cfg tl_program_file : string) : list string :=
  [sumo_binary; "-c"; scenario_cfg; "-a"; tl_program_file;
   "--tripinfo-output"; "temp_tripinfo.xml"; "--no-warnings"; "true"].

(** Lines 70-101: one iteration of the loop over [SCENARIOS]. *)
Definition run_scenario (tl_program_file scenario_cfg : string) (w : files)
    : result (pynum * files) :=
  s0 ← traci_start (sumo_cmd scenario_cfg tl_program_file) w;
  s ← ep_session (simulation_loop 0 0%nat s0);
  let w' := traci_close s w in
  scenario_score ← scenario_score w';
  Ok (scenario_score, w').

(** Lines 66-103: the loop over the scenarios, appending to
    [scenario_scores]. *)
Fixpoint evaluate_scenarios (tl_program_file : string) (scenarios : list string)
    (scenario_scores : list pynum) (w : files) : result (list pynum * files) :=
  match scenarios with
  | [] => Ok (scenario_scores, w)
  | scenario_cfg :: rest =>
      '(score, w') ← run_scenario tl_program_file scenario_cfg w;
      evaluate_scenarios tl_program_file rest (scenario_scores ++ [score]) w'
  end.

Definition objective_function (params : Z * f64) (w : files)
    : result (pynum * files) :=
  let '(cycle_length, ns_green_ratio) := params in
  let tl_program_file := "temp_tls.add.xml"%string in
  w1 ← generate_tl_program cycle_length ns_green_ratio tl_program_file w;
  '(scenario_scores, w2) ← evaluate_scenarios tl_program_file SCENARIOS [] w1;
  resilience_score ← py_max scenario_scores;
  Ok (resilience_score, w2).
End Objective.
End bayesian_optimization.

(** ** final_evaluation.py *)

Module final_evaluation.

Definition MAX_SIM_STEPS : Z := 3600.

Definition SUMO_BINARY : string := "sumo".

Section Evaluation.
Context {T : Traci} {N : Numeric}.

(** Lines 38-41: the stepping loop, from the current [step]. *)
Equations? evaluation_loop (step : Z) (calls : nat) (s : session) : episode
  by wf (Z.to_nat (MAX_SIM_STEPS - step)) lt :=
evaluation_loop step calls s with Z_lt_dec 0 (getMinExpectedNumber s) => {
  | right _ := Episode _ (Ok s) step calls;
  | left _ with Z_lt_dec step MAX_SIM_STEPS => {
    | right _ := Episode _ (Ok s) step calls;
    | left _ with simulationStep s => {
      | Raise e := Episode _ (Raise e) step (S calls);
      | Ok s' := evaluation_loop (step + 1) (S calls) s' } } }.
Proof. lia. Qed.

(** Lines 45-51: the reduction of the trip report. *)
Definition reduce_report (w : files) : result pynum :=
  try_except_report
    (root ← ET.parse w "temp_tripinfo.xml";
     wait_times ← waiting_times root;
     match wait_times with
     | [] => Ok (PyInt MAX_SIM_STEPS)
     | _ => Ok (PyFloat (np_mean wait_times))
     end)
    (PyInt MAX_SIM_STEPS).

Definition sumo_cmd (scenario_cfg : string) (plan_file : option string) : list string :=
  [SUMO_BINARY; "-c"; scenario_cfg; "--tripinfo-output"; "temp_tripinfo.xml";
   "--no-warnings"; "true"]
  ++ (if truthy plan_file then ["-a"; default ""%string plan_file] else []).

Definition run_single_evaluation (scenario_name scenario_cfg plan_name : string)
    (plan_file : option string) (w : files) : result (pynum * files) :=
  s0 ← traci_start (sumo_cmd scenario_cfg plan_file) w;
  s ← ep_session (evaluation_loop 0 0%nat s0);
  let w' := traci_close s w in
  score ← reduce_report w';
  Ok (score, w').

(** The two registries; a [dict] is iterated in insertion order. *)
Definition SCENARIOS : list (string * string) :=
  [("Normal", "grid_normal.sumocfg");
   ("High-Stress", "grid_highstress.sumocfg");
   ("Disrupted", "grid_disrupted.sumocfg")]%string.

Definition PLANS : list (string * option string) :=
  [("Default-SUMO", None);
   ("Optimized-for-Normal", Some "plan_normal_day.add.xml");
   ("Optimized-for-Resilience", Some "plan_resilient.add.xml")]%string.

(** One entry of [results]: the keys ["Plan"], ["Scenario"] and
    ["Avg. Wait Time (s)"]. *)
Record row := Row {
  Plan : string;
  Scenario : string;
  Avg_Wait_Time : pynum
}.

(** Lines 63-69: the inner loop, over the scenarios. *)
Fixpoint scenario_rows (plan_name : string) (plan_file : option string)
    (scenarios : list (string * string)) (results : list row) (w : files)
    : result (list row * files) :=
  match scenarios with
  | [] => Ok (results, w)
  | (scenario_name, scenario_cfg) :: rest =>
      '(avg_wait_time, w') ←
        run_single_evaluation scenario_name scenario_cfg plan_name plan_file w;
      scenario_rows plan_name plan_file rest
        (results ++ [Row plan_name scenario_name avg_wait_time]) w'
  end.

(** Lines 62-69: the outer loop, over the plans. *)
Fixpoint plan_rows (plans : list (string * option string)) (results : list row)
    (w : files) : result (list row * files) :=
  match plans with
  | [] => Ok (results, w)
  | (plan_name, plan_file) :: rest =>
      '(results', w') ← scenario_rows plan_name plan_file SCENARIOS results w;
      plan_rows rest results' w'
  end.

(** Lines 54-69 of the main block: the check of the environment and the
    [results] list; [inl msg] is [sys.exit(msg)]. What follows in the
    script (the table, the CSV file and the chart) is pandas and
    matplotlib. *)
Definition main (environ : gmap string string) (w : files)
    : string + result (list row * files) :=
  match environ !! "SUMO_HOME"%string with
  | None => inl "please declare environment variable 'SUMO_HOME'"%string
  | Some _ => inr (plan_rows PLANS [] w)
  end.
End Evaluation.
End final_evaluation.

(** ** Vocabulary of the specification *)

(** The three degenerate trip reports: the file is absent, it is not
    well-formed XML, or it holds no [tripinfo] record. *)
Definition degenerate_report (w : files) : bool :=
  match w !! "temp_tripinfo.xml"%string with
  | None => true
  | Some (ET.OtherFile _) => true
  | Some (ET.XmlFile root) =>
      match ET.findall root "tripinfo" with
      | [] => true
      | _ => false
      end
  end.

(** The mean-waiting-time reduction with no penalty branch at all, as the
    specification words the final evaluation's reduction: parse errors
    propagate and the mean is taken of whatever list was read. *)
Definition mean_without_penalty {N : Numeric} (w : files) : result pynum :=
  root ← ET.parse w "temp_tripinfo.xml";
  wait_times ← waiting_times root;
  Ok (PyFloat (np_mean wait_times)).

(** A score as the scoring code produces it: the integer penalty or a
    float mean. *)
Definition is_score (penalty : Z) (a : pynum) : Prop :=
  match a with
  | PyInt z => z = penalty
  | PyFloat _ => True
  end.

(** The shape shared by the two report reductions, with the penalty left
    open; the proofs bring both reductions to this form. *)
Definition reduction {N : Numeric} (penalty : Z) (w : files) : result pynum :=
  match w !! "temp_tripinfo.xml"%string with
  | None => Ok (PyInt penalty)
  | Some (ET.OtherFile _) => Ok (PyInt penalty)
  | Some (ET.XmlFile root) =>
      match waiting_times root with
      | Ok [] => Ok (PyInt penalty)
      | Ok wait_time => Ok (PyFloat (np_mean wait_time))
      | Raise e => Raise e
      end
  end.

(** The floor of the exact product of an integer and a finite double. *)
Definition exact_product_floor (z : Z) (x : f64) : option Z :=
  match x with
  | S754_zero _ => Some 0
  | S754_finite s m e =>
      Some (if 0 <=? e then z * signed_mantissa s m * 2 ^ e
            else (z * signed_mantissa s m) / 2 ^ (- e))
  | _ => None
  end.

(** The session after [k] calls of [traci.simulationStep]. *)
Fixpoint run_steps {T : Traci} (k : nat) (s : session) : result session :=
  match k with
  | O => Ok s
  | S k' => s' ← simulationStep s; run_steps k' s'
  end.

(** The [state] attributes of the phases of one [tlLogic], in order. *)
Definition phase_states (tl : ET.element) : list (option string) :=
  map (fun ph => ET.get ph "state") (ET.findall tl "phase").

(** The colour a state string gives the signal with index [i]. *)
Definition green_at (state : string) (i : nat) : bool :=
  match String.get i state with
  | Some "G"%char => true
  | Some "g"%char => true
  | _ => false
  end.

Definition yellow_at (state : string) (i : nat) : bool :=
  match String.get i state with
  | Some "y"%char => true
  | _ => false
  end.

(** The options of a simulator command line: the flags after the binary,
    each with its value. *)
Fixpoint option_pairs (args : list string) : list (string * string) :=
  match args with
  | flag :: value :: rest => (flag, value) :: option_pairs rest
  | _ => []
  end.

Definition cmd_options (cmd : list string) : list (string * string) :=
  option_pairs (tail cmd).

(** The [duration] attributes of the phases of one [tlLogic], in order. *)
Definition phase_durations (tl : ET.element) : list (option string) :=
  map (fun ph => ET.get ph "duration") (ET.findall tl "phase").

(** An episode that ended before the step budget did so only after the
    settling period. *)
Definition stops_only_after_settling {T : Traci} (ep : episode) : Prop :=
  forall s, ep_session ep = Ok s -> ep_step ep < 3600 -> 100 < ep_step ep.

(** A simulator that always has vehicles to expect and whose steps never
    fail. *)
Definition never_empty {T : Traci} : Prop :=
  forall s, 0 < getMinExpectedNumber s /\
    exists s', simulationStep s = Ok s' /\ 0 < getMinExpectedNumber s'.

(** ** Test doubles *)

Module Fixture.

(** A simulator that counts the vehicles still expected: every step lets
    one of them arrive, and closing leaves the report chosen for the
    scenario configuration the session was started with. *)
Definition countdown (vehicles : nat) (report_of : string -> option ET.file) : Traci := {|
  session := nat * string;
  traci_start := fun cmd _ => Ok (vehicles, nth 2 cmd ""%string);
  simulationStep := fun s => Ok (Nat.pred (fst s), snd s);
  getMinExpectedNumber := fun s => Z.of_nat (fst s);
  traci_close := fun s w =>
    match report_of (snd s) with
    | Some f => <["temp_tripinfo.xml"%string := f]> w
    | None => delete "temp_tripinfo.xml"%string w
    end
|}.

(** A simulator with traffic for ever. *)
Definition endless : Traci := {|
  session := unit;
  traci_start := fun _ _ => Ok tt;
  simulationStep := fun s => Ok s;
  getMinExpectedNumber := fun _ => 1;
  traci_close := fun _ w => w
|}.

(** A simulator that always expects a vehicle and whose connection breaks
    at the step after [k] successful ones. *)
Definition crashing (k : nat) : Traci := {|
  session := nat;
  traci_start := fun _ _ => Ok 0%nat;
  simulationStep := fun done => if (done <? k)%nat then Ok (S done) else Raise FatalTraCIError;
  getMinExpectedNumber := fun _ => 1;
  traci_close := fun _ w => w
|}.

(** [float] restricted to decimal integer literals, and the mean as a
    left-to-right sum divided by the length. *)
Definition numeric : Numeric := {|
  float_of_str := fun s => (fun d => of_Z (Z.of_int d)) <$> NilZero.int_of_string s;
  np_mean := fun l => div (fold_left add l (S754_zero false)) (of_Z (Z.of_nat (length l)))
|}.

Definition tripinfo (waitingTime : string) : ET.element :=
  ET.Element "tripinfo" [("id", "veh0"); ("waitingTime", waitingTime)] [].

Definition report (waitingTimes : list string) : ET.file :=
  ET.XmlFile (ET.Element "tripinfos" [] (map tripinfo waitingTimes)).

(** A file system holding a report of two trips. *)
Definition two_trips : files :=
  <["temp_tripinfo.xml"%string := report ["10"; "50"]]> ∅.

(** The same two waiting times in a report with another root, more
    attributes, a foreign element and a nested [tripinfo]. *)
Definition noisy_trips : files :=
  <["temp_tripinfo.xml"%string :=
     ET.XmlFile (ET.Element "report" [("generator", "sumo")]
       [ET.Element "tripinfo" [("waitingTime", "10"); ("duration", "77")] [];
        ET.Element "personinfo" [("id", "p0")] [];
        ET.Element "tripinfo" [("id", "veh1"); ("waitingTime", "50")]
          [ET.Element "tripinfo" [("waitingTime", "99")] []]])]> ∅.

(** A report whose second record has no [waitingTime]. *)
Definition unfinished : ET.element :=
  ET.Element "tripinfos" []
    [tripinfo "10"; ET.Element "tripinfo" [("id", "veh1")] []; tripinfo "50"].

Definition unfinished_trips : files :=
  <["temp_tripinfo.xml"%string := ET.XmlFile unfinished]> ∅.

(** One vehicle per scenario, waiting 10, 50 and 20 seconds. *)
Definition reports (scenario_cfg : string) : option ET.file :=
  if String.eqb scenario_cfg "grid_normal.sumocfg" then Some (report ["10"])
  else if String.eqb scenario_cfg "grid_highstress.sumocfg" then Some (report ["50"])
  else if String.eqb scenario_cfg "grid_disrupted.sumocfg" then Some (report ["20"])
  else None.

End Fixture.

(** * Proofs *)

(** ** Rounding in binary64

    [SpecFloat] rounds a mantissa by shifting it right bit by bit while
    recording what falls off; the lemmas below say what that amounts to
    on integers. *)

Lemma digits2_pos_size p : digits2_pos p = Pos.size p.
Proof. induction p as [p IH | p IH |]; simpl; congruence. Qed.

Lemma digits2_pos_log2 p : Zpos (digits2_pos p) = Z.log2 (Zpos p) + 1.
Proof. rewrite digits2_pos_size. destruct p; simpl; lia. Qed.

Lemma shr_1_m mrs : 0 <= shr_m mrs -> shr_m (shr_1 mrs) = shr_m mrs / 2.
Proof.
  destruct mrs as [m r s]. cbn [shr_m]. intros Hm.
  destruct m as [| [p | p |] | p]; cbn [shr_1 shr_m]; try lia; try reflexivity.
  - apply Z.div_unique with 1; lia.
  - apply Z.div_unique with 0; lia.
Qed.

Lemma pow2_xI p : 2 ^ Z.pos p~1 = 2 * (2 ^ Z.pos p * 2 ^ Z.pos p).
Proof.
  replace (Z.pos p~1) with (1 + Z.pos p + Z.pos p) by lia.
  rewrite !Z.pow_add_r by lia. lia.
Qed.

Lemma pow2_xO p : 2 ^ Z.pos p~0 = 2 ^ Z.pos p * 2 ^ Z.pos p.
Proof.
  replace (Z.pos p~0) with (Z.pos p + Z.pos p) by lia.
  rewrite !Z.pow_add_r by lia. lia.
Qed.

Lemma iter_pos_shr_1_m p : forall mrs, 0 <= shr_m mrs ->
  shr_m (SpecFloat.iter_pos shr_1 p mrs) = shr_m mrs / 2 ^ Zpos p.
Proof.
  induction p as [p IH | p IH |]; intros mrs Hm; cbn [SpecFloat.iter_pos].
  - assert (H1 : 0 <= shr_m (shr_1 mrs)) by (rewrite shr_1_m by done; apply Z.div_pos; lia).
    assert (H2 : 0 <= shr_m (SpecFloat.iter_pos shr_1 p (shr_1 mrs)))
      by (rewrite IH by done; apply Z.div_pos; lia).
    rewrite IH, IH, shr_1_m by done.
    rewrite !Z.div_div by lia. f_equal. rewrite pow2_xI. lia.
  - assert (H2 : 0 <= shr_m (SpecFloat.iter_pos shr_1 p mrs))
      by (rewrite IH by done; apply Z.div_pos; lia).
    rewrite IH, IH by done.
    rewrite !Z.div_div by lia. f_equal. rewrite pow2_xO. lia.
  - rewrite shr_1_m by done. reflexivity.
Qed.

Lemma shr_m_of_loc m l : shr_m (shr_record_of_loc m l) = m.
Proof. destruct l as [| []]; reflexivity. Qed.

Lemma shr_spec mrs e n : 0 <= shr_m mrs ->
  shr_m (fst (shr mrs e n)) = shr_m mrs / 2 ^ Z.max 0 n /\
  snd (shr mrs e n) = e + Z.max 0 n.
Proof.
  intros Hm. destruct n as [| p | p]; simpl.
  - rewrite Z.div_1_r. lia.
  - rewrite iter_pos_shr_1_m by done. split; [reflexivity | lia].
  - rewrite Z.div_1_r. lia.
Qed.

Lemma round_nearest_even_bounds m l :
  m <= round_nearest_even m l <= m + 1.
Proof. destruct l as [| []]; simpl; try destruct (Z.even m); lia. Qed.

Lemma Zdigits2_log2 m : 0 < m -> Zdigits2 m = Z.log2 m + 1.
Proof. destruct m as [| p | p]; try lia. intros _. apply digits2_pos_log2. Qed.

Lemma fexp_normal e : -1074 <= e - 53 -> fexp prec emax e = e - 53.
Proof. unfold fexp, SpecFloat.emin, prec, emax. lia. Qed.

Lemma shr_fexp_spec m e l : 0 < m ->
  let n := Z.max 0 (fexp prec emax (Z.log2 m + 1 + e) - e) in
  shr_m (fst (shr_fexp prec emax m e l)) = m / 2 ^ n /\
  snd (shr_fexp prec emax m e l) = e + n.
Proof.
  intros Hm n. unfold shr_fexp. rewrite Zdigits2_log2 by done.
  pose proof (shr_spec (shr_record_of_loc m l) e
                (fexp prec emax (Z.log2 m + 1 + e) - e)) as Hs.
  rewrite shr_m_of_loc in Hs. apply Hs. lia.
Qed.

Lemma shr_nonpos mrs e n : n <= 0 -> shr mrs e n = (mrs, e).
Proof. destruct n; [reflexivity | lia | reflexivity]. Qed.

(** A mantissa that already fits is left alone. *)
Lemma binary_round_aux_exact s p e :
  Z.log2 (Zpos p) + 1 <= 53 -> -1074 <= e <= 971 ->
  binary_round_aux prec emax s (Zpos p) e loc_Exact = S754_finite s p e.
Proof.
  intros Hd He.
  assert (Hn : fexp prec emax (Zdigits2 (Z.pos p) + e) - e <= 0).
  { rewrite Zdigits2_log2 by lia. unfold fexp, SpecFloat.emin, prec, emax. lia. }
  unfold binary_round_aux, shr_fexp.
  rewrite shr_nonpos by done. cbn [shr_record_of_loc shr_m loc_of_shr_record round_nearest_even].
  rewrite shr_nonpos by done. cbn [shr_record_of_loc shr_m].
  unfold prec, emax. destruct (Z.leb_spec e (1024 - 53)); [reflexivity | lia].
Qed.

(** A mantissa of more than 53 bits is rounded to 53 bits: the result
    lies between the truncated mantissa and its successor. *)
Lemma binary_round_aux_round s p e :
  let d := Z.log2 (Zpos p) + 1 in
  53 < d -> -1074 <= d + e - 53 -> d + e - 53 < 971 ->
  exists m' e' m2,
    binary_round_aux prec emax s (Zpos p) e loc_Exact = S754_finite s m' e' /\
    Zpos p / 2 ^ (d - 53) <= m2 <= Zpos p / 2 ^ (d - 53) + 1 /\
    e + (d - 53) <= e' <= e + (d - 53) + 1 /\
    Zpos m' = m2 / 2 ^ (e' - (e + (d - 53))).
Proof.
  intros d Hd Hlo Hhi.
  unfold binary_round_aux.
  destruct (shr_fexp prec emax (Z.pos p) e loc_Exact) as [mrs1 e1] eqn:H1.
  pose proof (shr_fexp_spec (Z.pos p) e loc_Exact ltac:(lia)) as [Hm1 He1].
  rewrite H1 in Hm1, He1. cbn [fst snd] in Hm1, He1.
  fold d in Hm1, He1. rewrite fexp_normal in Hm1, He1 by lia.
  replace (Z.max 0 (d + e - 53 - e)) with (d - 53) in Hm1, He1 by lia.
  set (m2 := round_nearest_even (shr_m mrs1) (loc_of_shr_record mrs1)).
  pose proof (round_nearest_even_bounds (shr_m mrs1) (loc_of_shr_record mrs1)) as Hr.
  fold m2 in Hr.
  (* the truncated mantissa has exactly 53 bits *)
  assert (Hl1 : Z.log2 (shr_m mrs1) = 52).
  { rewrite Hm1, <- Z.shiftr_div_pow2, Z.log2_shiftr by lia. unfold d. lia. }
  assert (Hpos1 : 0 < shr_m mrs1).
  { destruct (Z.log2_null (shr_m mrs1)) as [_ Hz]. destruct (Z_lt_le_dec 0 (shr_m mrs1)); [done|].
    assert (shr_m mrs1 <= 1) by lia. specialize (Hz H). lia. }
  assert (Hl2 : 52 <= Z.log2 m2 <= 53).
  { split.
    - rewrite <- Hl1. apply Z.log2_le_mono. lia.
    - destruct (Z.eq_dec m2 (shr_m mrs1)) as [-> | Hne]; [lia|].
      replace m2 with (Z.succ (shr_m mrs1)) by lia.
      pose proof (Z.log2_succ_le (shr_m mrs1)). lia. }
  destruct (shr_fexp prec emax m2 e1 loc_Exact) as [mrs2 e2] eqn:H2.
  pose proof (shr_fexp_spec m2 e1 loc_Exact ltac:(lia)) as [Hm2 He2].
  rewrite H2 in Hm2, He2. cbn [fst snd] in Hm2, He2.
  rewrite fexp_normal in Hm2, He2 by lia.
  assert (Hpos2 : 0 < shr_m mrs2).
  { rewrite Hm2. apply Z.div_str_pos. split; [apply Z.pow_pos_nonneg; lia|].
    apply Z.le_trans with (2 ^ 1).
    - apply Z.pow_le_mono_r; lia.
    - apply Z.le_trans with (2 ^ 52); [apply Z.pow_le_mono_r; lia|].
      apply Z.log2_le_pow2; lia. }
  destruct (shr_m mrs2) as [| m' |] eqn:Hm'; try lia.
  destruct (Z.leb_spec e2 (emax - prec)) as [_ | Hov]; [| unfold emax, prec in Hov; lia].
  exists m', e2, m2. split; [reflexivity|].
  split; [rewrite <- Hm1; exact Hr|].
  split; [lia|].
  rewrite Hm2. f_equal. f_equal. lia.
Qed.

Lemma pos_iter_xO p k : Zpos (Pos.iter xO p k) = Zpos p * 2 ^ Zpos k.
Proof.
  induction k as [| k IH] using Pos.peano_ind.
  - simpl. lia.
  - rewrite Pos.iter_succ, Pos2Z.inj_xO, IH, Pos2Z.inj_succ, Z.pow_succ_r by lia. lia.
Qed.

(** Integers below 2^53 convert exactly: the mantissa is the integer
    shifted up to 53 bits. *)
Lemma of_Z_small g :
  0 < g < 2 ^ 53 ->
  let d := Z.log2 g + 1 in
  exists x, of_Z g = S754_finite false x (d - 53) /\ Zpos x = g * 2 ^ (53 - d).
Proof.
  intros Hg d. destruct g as [| p | p]; try lia.
  assert (Hd : 1 <= d <= 53).
  { unfold d. pose proof (Z.log2_nonneg (Z.pos p)).
    assert (Z.log2 (Z.pos p) < 53) by (apply Z.log2_lt_pow2; lia). lia. }
  unfold of_Z, binary_normalize, binary_round.
  rewrite digits2_pos_log2. fold d.
  replace (d + 0) with d by lia. rewrite fexp_normal by lia.
  unfold shl_align.
  destruct (d - 53 - 0) as [| k | k] eqn:Hk; try lia.
  - exists p. rewrite binary_round_aux_exact by (fold d; lia).
    split; [f_equal; lia|]. replace (53 - d) with 0 by lia. lia.
  - exists (Pos.iter xO p k).
    assert (Hx : Zpos (Pos.iter xO p k) = Z.pos p * 2 ^ (53 - d))
      by (rewrite pos_iter_xO; f_equal; f_equal; lia).
    rewrite binary_round_aux_exact; [done | | lia].
    rewrite Hx, Z.log2_mul_pow2 by lia. fold d. lia.
Qed.

Lemma int_of_float_pos m e :
  e <= 0 -> int_of_float (S754_finite false m e) = Ok (Zpos m / 2 ^ (- e)).
Proof.
  intros He. unfold int_of_float, signed_mantissa, cond_Zopp.
  destruct (Z.leb_spec 0 e).
  - replace e with 0 by lia. simpl. f_equal. rewrite Z.div_1_r. lia.
  - f_equal. apply Z.quot_div_nonneg; [lia | apply Z.pow_pos_nonneg; lia].
Qed.

Lemma math_floor_pos m e :
  e <= 0 -> math_floor (S754_finite false m e) = Ok (Zpos m / 2 ^ (- e)).
Proof.
  intros He. unfold math_floor, signed_mantissa, cond_Zopp.
  destruct (Z.leb_spec 0 e); [| reflexivity].
  replace e with 0 by lia. simpl. f_equal. rewrite Z.div_1_r. lia.
Qed.


(** *** The doubles between the literals 0.3 and 0.7 *)

Lemma ratio_finite r :
  leb lit_0_3 r = true -> leb r lit_0_7 = true ->
  exists m e, r = S754_finite false m e.
Proof.
  intros Hlo Hhi.
  destruct r as [s | s | | s m e]; try (destruct s; discriminate); try discriminate.
  destruct s; [discriminate|]. exists m, e. reflexivity.
Qed.

Lemma leb_finite_pos m1 e1 m2 e2 :
  leb (S754_finite false m1 e1) (S754_finite false m2 e2) = true ->
  e1 < e2 \/ (e1 = e2 /\ Zpos m1 <= Zpos m2).
Proof.
  unfold leb, SFleb, SFcompare. rewrite Pos.compare_cont_spec.
  unfold Pos.switch_Eq. rewrite Pos2Z.inj_compare.
  destruct (Z.compare_spec e1 e2) as [E | E | E]; try discriminate; [| lia].
  destruct (Z.compare_spec (Zpos m1) (Zpos m2)) as [E' | E' | E'];
    try discriminate; lia.
Qed.

Lemma ratio_exponent m e :
  leb lit_0_3 (S754_finite false m e) = true ->
  leb (S754_finite false m e) lit_0_7 = true ->
  (e = -54 /\ 5404319552844595 <= Zpos m) \/
  (e = -53 /\ Zpos m <= 6305039478318694).
Proof.
  intros Hlo Hhi.
  apply leb_finite_pos in Hlo. apply leb_finite_pos in Hhi.
  destruct Hlo as [Hlo | [Hlo Hlo']], Hhi as [Hhi | [Hhi Hhi']].
  - lia.
  - right. split; [exact Hhi | exact Hhi'].
  - left. split; [symmetry; exact Hlo | exact Hlo'].
  - lia.
Qed.

Lemma ratio_mantissa m e :
  valid (S754_finite false m e) = true -> e = -54 \/ e = -53 ->
  2 ^ 52 <= Zpos m < 2 ^ 53.
Proof.
  intros Hv He.
  unfold valid, valid_binary, bounded, canonical_mantissa in Hv.
  apply andb_prop in Hv as [Hc _]. apply Z.eqb_eq in Hc.
  rewrite digits2_pos_log2 in Hc. unfold fexp, SpecFloat.emin, prec, emax in Hc.
  assert (Hl : Z.log2 (Z.pos m) = 52) by lia.
  split.
  - apply Z.log2_le_pow2; lia.
  - apply Z.log2_lt_pow2; lia.
Qed.

Lemma ratio_range r :
  valid r = true -> leb lit_0_3 r = true -> leb r lit_0_7 = true ->
  exists m e, r = S754_finite false m e /\
    2 ^ 52 <= Zpos m < 2 ^ 53 /\
    ((e = -54 /\ 5404319552844595 <= Zpos m) \/
     (e = -53 /\ Zpos m <= 6305039478318694)).
Proof.
  intros Hv Hlo Hhi.
  destruct (ratio_finite r Hlo Hhi) as (m & e & ->).
  pose proof (ratio_exponent m e Hlo Hhi) as He.
  assert (He' : e = -54 \/ e = -53) by (destruct He as [[? _] | [? _]]; auto).
  pose proof (ratio_mantissa m e Hv He') as Hm.
  exists m, e. split; [reflexivity|]. split; [exact Hm | exact He].
Qed.

(** *** The green split on the parameter domain *)

Lemma green_arith g m twoa twob twon K q m2 :
  14 <= g <= 114 -> 0 < twoa -> 0 < twon -> 8 <= K -> 0 < m ->
  4 * twob <= 14 * m -> 10 * m <= 7 * twob ->
  twoa * twob = twon * K ->
  q = (g * twoa * m) / twon ->
  q <= m2 <= q + 1 ->
  4 <= m2 / K <= g - 5.
Proof.
  intros Hg Ha Hn HK Hm Hlo Hhi HA Hq Hm2.
  pose proof (Z.mul_div_le (g * twoa * m) twon Hn) as Hq1. rewrite <- Hq in Hq1.
  assert (Hq4 : 4 * K <= q).
  { rewrite Hq. apply Z.div_le_lower_bound; [exact Hn|].
    replace (twon * (4 * K)) with (twoa * (4 * twob)) by lia.
    replace (g * twoa * m) with (twoa * (g * m)) by lia.
    apply Z.mul_le_mono_nonneg_l; [lia|].
    assert (14 * m <= g * m) by (apply Z.mul_le_mono_nonneg_r; lia). lia. }
  assert (Hq10 : 10 * q <= 7 * g * K).
  { apply Z.mul_le_mono_pos_l with twon; [exact Hn|].
    replace (twon * (7 * g * K)) with (7 * g * (twoa * twob)) by (rewrite HA; ring).
    assert (0 <= g * twoa) by (apply Z.mul_nonneg_nonneg; lia).
    pose proof (Z.mul_le_mono_nonneg_l _ _ (g * twoa) H Hhi) as Hp.
    replace (twon * (10 * q)) with (10 * (q * twon)) by ring.
    replace (7 * g * (twoa * twob)) with (g * twoa * (7 * twob)) by ring.
    replace (g * twoa * (10 * m)) with (10 * (g * twoa * m)) in Hp by ring.
    replace (twon * (g * twoa * m / twon)) with (q * twon) in Hq1 by (rewrite Hq; ring).
    lia. }
  split.
  - apply Z.div_le_lower_bound; lia.
  - assert (m2 / K < g - 4); [| lia].
    apply Z.div_lt_upper_bound; [lia|].
    assert (0 <= (3 * g - 42) * K) by (apply Z.mul_nonneg_nonneg; lia).
    nia.
Qed.

Lemma pow2_52 : 2 ^ 52 = 4503599627370496.
Proof. reflexivity. Qed.

Lemma pow2_53 : 2 ^ 53 = 9007199254740992.
Proof. reflexivity. Qed.

Lemma pow2_54 : 2 ^ 54 = 18014398509481984.
Proof. reflexivity. Qed.


Lemma log2_green g : 14 <= g <= 114 -> 3 <= Z.log2 g <= 6.
Proof.
  intros Hg. split.
  - apply Z.log2_le_pow2; [lia|]. change (2 ^ 3) with 8. lia.
  - assert (Z.log2 g < 7); [| lia]. apply Z.log2_lt_pow2; [lia|]. change (2 ^ 7) with 128. lia.
Qed.

Lemma green_times_domain c r :
  20 <= c <= 120 ->
  valid r = true -> leb lit_0_3 r = true -> leb r lit_0_7 = true ->
  exists ns ew,
    bayesian_optimization.green_times c r = Ok (ns, ew) /\
    4 <= ns /\ 5 <= ew /\ ns + ew = c - 6 /\
    math_floor (mul (of_Z (c - 6)) r) = Ok ns.
Proof.
  intros Hc Hv Hlo Hhi.
  set (g := c - 6). assert (Hg : 14 <= g <= 114) by (unfold g; lia).
  pose proof (log2_green g Hg) as Hlg.
  destruct (of_Z_small g) as (x & Hx & Hxv).
  { rewrite pow2_53. lia. }
  destruct (ratio_range r Hv Hlo Hhi) as (m & e & -> & Hm & He).
  set (a := 53 - (Z.log2 g + 1)) in *.
  replace (Z.log2 g + 1 - 53) with (- a) in Hx by (unfold a; lia).
  assert (Ha : 46 <= a <= 49) by (unfold a; lia).
  (* the product before rounding *)
  assert (Hmul : mul (of_Z g) (S754_finite false m e) =
                 binary_round_aux prec emax false (Zpos (x * m)) (- a + e) loc_Exact).
  { rewrite Hx. reflexivity. }
  assert (HP : Zpos (x * m) = g * 2 ^ a * Zpos m) by (rewrite Pos2Z.inj_mul, Hxv; reflexivity).
  assert (Hx52 : 2 ^ 52 <= Zpos x < 2 ^ 53).
  { destruct (Z.log2_spec g ltac:(lia)) as [Hl1 Hl2].
    rewrite Hxv. replace 52 with (Z.log2 g + a) by (unfold a; lia).
    replace 53 with (Z.succ (Z.log2 g) + a) by (unfold a; lia).
    rewrite !Z.pow_add_r by lia.
    assert (0 < 2 ^ a) by (apply Z.pow_pos_nonneg; lia).
    split; [apply Z.mul_le_mono_nonneg_r | apply Z.mul_lt_mono_pos_r]; lia. }
  assert (Hd : 104 <= Z.log2 (Zpos (x * m)) <= 105).
  { rewrite Pos2Z.inj_mul. split.
    - apply Z.log2_le_pow2; [lia|]. change 104 with (52 + 52).
      rewrite Z.pow_add_r by lia. apply Z.mul_le_mono_nonneg; lia.
    - assert (Z.log2 (Zpos x * Zpos m) < 106); [| lia].
      apply Z.log2_lt_pow2; [lia|]. change 106 with (53 + 53).
      rewrite Z.pow_add_r by lia. apply Z.mul_lt_mono_nonneg; lia. }
  destruct (binary_round_aux_round false (x * m) (- a + e)) as (m' & e' & m2 & Hr & Hm2 & He' & Hm').
  { lia. } { lia. } { lia. }
  set (n := Z.log2 (Zpos (x * m)) + 1 - 53) in *.
  set (b := - e).
  assert (Hb : 53 <= b <= 54) by (unfold b; lia).
  assert (Hek : - a + e + n = - (a + b - n)) by (unfold b; lia).
  rewrite Hek in He', Hm'.
  set (k := a + b - n) in *.
  assert (Hk : 46 <= k <= 51) by (unfold k; lia).
  (* the truncation of the rounded product *)
  assert (Hns : int_of_float (S754_finite false m' e') = Ok (m2 / 2 ^ k) /\
                math_floor (S754_finite false m' e') = Ok (m2 / 2 ^ k)).
  { rewrite int_of_float_pos, math_floor_pos by lia. rewrite Hm'.
    assert (0 < 2 ^ (e' - - k)) by (apply Z.pow_pos_nonneg; lia).
    assert (0 < 2 ^ (- e')) by (apply Z.pow_pos_nonneg; lia).
    rewrite Z.div_div by lia.
    rewrite <- Z.pow_add_r by lia.
    replace (e' - - k + - e') with k by lia. split; reflexivity. }
  destruct Hns as [Hint Hfloor].
  assert (Hbounds : 4 <= m2 / 2 ^ k <= g - 5).
  { apply (green_arith g (Zpos m) (2 ^ a) (2 ^ b) (2 ^ n) (2 ^ k) (Zpos (x * m) / 2 ^ n) m2).
    - exact Hg.
    - apply Z.pow_pos_nonneg; lia.
    - apply Z.pow_pos_nonneg; lia.
    - change 8 with (2 ^ 3). apply Z.pow_le_mono_r; lia.
    - lia.
    - unfold b. destruct He as [[-> He] | [-> He]].
      + change (- -54) with 54. rewrite pow2_54. lia.
      + change (- -53) with 53. rewrite pow2_53. rewrite pow2_52 in Hm. lia.
    - unfold b. destruct He as [[-> He] | [-> He]].
      + change (- -54) with 54. rewrite pow2_54. rewrite pow2_53 in Hm. lia.
      + change (- -53) with 53. rewrite pow2_53. lia.
    - rewrite <- !Z.pow_add_r by lia. f_equal. unfold k. lia.
    - rewrite HP. reflexivity.
    - exact Hm2. }
  exists (m2 / 2 ^ k), (g - m2 / 2 ^ k).
  split.
  { unfold bayesian_optimization.green_times, mul_int_float, float_of_int.
    fold g. rewrite Hx. cbn [mbind result_bind]. rewrite <- Hx, Hmul, Hr.
    cbn [mbind result_bind]. rewrite Hint. reflexivity. }
  split; [lia|]. split; [lia|]. split; [lia|].
  fold g. rewrite Hmul, Hr. exact Hfloor.
Qed.

(** *** Ordering of doubles and [max] *)

Lemma ltb_finite_pos m1 e1 m2 e2 :
  ltb (S754_finite false m1 e1) (S754_finite false m2 e2) = true <->
  e1 < e2 \/ (e1 = e2 /\ Zpos m1 < Zpos m2).
Proof.
  unfold ltb, SFltb, SFcompare. rewrite Pos.compare_cont_spec.
  unfold Pos.switch_Eq. rewrite Pos2Z.inj_compare.
  destruct (Z.compare_spec e1 e2) as [E | E | E];
    [destruct (Z.compare_spec (Zpos m1) (Zpos m2)) as [E' | E' | E'] | |];
    split; intros H; try discriminate; try reflexivity; lia.
Qed.

Lemma ltb_finite_neg m1 e1 m2 e2 :
  ltb (S754_finite true m1 e1) (S754_finite true m2 e2) = true <->
  e2 < e1 \/ (e1 = e2 /\ Zpos m2 < Zpos m1).
Proof.
  unfold ltb, SFltb, SFcompare. rewrite Pos.compare_cont_spec.
  unfold Pos.switch_Eq. rewrite Pos2Z.inj_compare.
  destruct (Z.compare_spec e1 e2) as [E | E | E];
    [destruct (Z.compare_spec (Zpos m1) (Zpos m2)) as [E' | E' | E'] | |];
    split; intros H; try discriminate; try reflexivity; lia.
Qed.

Lemma ltb_irrefl x : ltb x x = false.
Proof.
  destruct x as [s | s | | s m e]; try (destruct s; reflexivity); try reflexivity.
  destruct s.
  - destruct (ltb (S754_finite true m e) (S754_finite true m e)) eqn:H; [| reflexivity].
    apply ltb_finite_neg in H. lia.
  - destruct (ltb (S754_finite false m e) (S754_finite false m e)) eqn:H; [| reflexivity].
    apply ltb_finite_pos in H. lia.
Qed.

Lemma ltb_trans x y z : ltb x y = true -> ltb y z = true -> ltb x z = true.
Proof.
  intros Hxy Hyz.
  destruct x as [sx | sx | | sx mx ex], y as [sy | sy | | sy my ey],
           z as [sz | sz | | sz mz ez];
    try destruct sx; try destruct sy; try destruct sz;
    try discriminate; try reflexivity.
  - apply ltb_finite_neg in Hxy, Hyz. apply ltb_finite_neg. lia.
  - apply ltb_finite_pos in Hxy, Hyz. apply ltb_finite_pos. lia.
Qed.

Lemma py_gt_score penalty a b :
  is_score penalty a -> is_score penalty b ->
  py_gt a b = ltb (as_float b) (as_float a).
Proof.
  destruct a as [x | x], b as [y | y]; simpl; try reflexivity.
  intros -> ->. rewrite ltb_irrefl. apply Z.ltb_irrefl.
Qed.

Lemma py_max_fold penalty (rest : list pynum) : forall (first : pynum) (seen : list pynum),
  Forall (is_score penalty) seen -> Forall (is_score penalty) rest ->
  first ∈ seen -> (forall s, s ∈ seen -> py_gt s first = false) ->
  let r := fold_left (fun maxitem item => if py_gt item maxitem then item else maxitem)
                     rest first in
  r ∈ seen ++ rest /\ forall s, s ∈ seen ++ rest -> py_gt s r = false.
Proof.
  induction rest as [| item rest IH]; intros first seen Hseen Hrest Hin Hmax; cbn zeta.
  - rewrite app_nil_r. simpl. auto.
  - apply Forall_cons in Hrest as [Hitem Hrest]. cbn [fold_left].
    replace (seen ++ item :: rest) with ((seen ++ [item]) ++ rest)
      by (rewrite <- app_assoc; reflexivity).
    assert (Hseen' : Forall (is_score penalty) (seen ++ [item]))
      by (apply Forall_app; split; [exact Hseen | apply Forall_cons; split; [exact Hitem | constructor]]).
    assert (Hfirst : is_score penalty first)
      by (rewrite Forall_forall in Hseen; apply Hseen, Hin).
    destruct (py_gt item first) eqn:Hgt.
    + apply IH; try assumption.
      * apply elem_of_app. right. apply list_elem_of_singleton. reflexivity.
      * intros s Hs. apply elem_of_app in Hs as [Hs | Hs].
        -- destruct (py_gt s item) eqn:Hsi; [| reflexivity].
           assert (Hsc : is_score penalty s) by (rewrite Forall_forall in Hseen; apply Hseen, Hs).
           rewrite <- (Hmax s Hs).
           rewrite (py_gt_score penalty) in Hgt, Hsi |- * by assumption.
           symmetry. eapply ltb_trans; eassumption.
        -- apply list_elem_of_singleton in Hs as ->.
           rewrite (py_gt_score penalty) by assumption. apply ltb_irrefl.
    + apply IH; try assumption.
      * apply elem_of_app. left. exact Hin.
      * intros s Hs. apply elem_of_app in Hs as [Hs | Hs]; [apply Hmax, Hs|].
        apply list_elem_of_singleton in Hs as ->. exact Hgt.
Qed.

(** [max] of a list of scores is one of them, and none is greater. *)
Lemma py_max_spec penalty (l : list pynum) r :
  Forall (is_score penalty) l -> py_max l = Ok r ->
  r ∈ l /\ forall s, s ∈ l -> py_gt s r = false.
Proof.
  intros Hl Hr. destruct l as [| first rest]; [discriminate|].
  injection Hr as <-. apply Forall_cons in Hl as [Hf Hrest].
  apply (py_max_fold penalty rest first [first]).
  - apply Forall_cons; split; [exact Hf | constructor].
  - exact Hrest.
  - apply list_elem_of_singleton. reflexivity.
  - intros s Hs. apply list_elem_of_singleton in Hs as ->.
    rewrite (py_gt_score penalty) by assumption. apply ltb_irrefl.
Qed.

(** *** The stepping loops *)

Section Loops.
Context {T : Traci}.

Lemma simulation_loop_calls step calls s :
  (ep_calls (bayesian_optimization.simulation_loop step calls s)
   <= calls + Z.to_nat (bayesian_optimization.MAX_SIM_STEPS - step))%nat.
Proof.
  funelim (bayesian_optimization.simulation_loop step calls s);
    unfold bayesian_optimization.MAX_SIM_STEPS in *; cbn [ep_calls]; lia.
Qed.

Lemma evaluation_loop_calls step calls s :
  (ep_calls (final_evaluation.evaluation_loop step calls s)
   <= calls + Z.to_nat (final_evaluation.MAX_SIM_STEPS - step))%nat.
Proof.
  funelim (final_evaluation.evaluation_loop step calls s);
    unfold final_evaluation.MAX_SIM_STEPS in *; cbn [ep_calls]; lia.
Qed.

(** When the optimisation loop stops before the budget is spent, [step]
    has passed 100, the simulator has just reported no expected vehicle,
    and one call more than [step] was made. *)
Lemma simulation_loop_early step calls s s' :
  let ep := bayesian_optimization.simulation_loop step calls s in
  ep_session ep = Ok s' -> ep_step ep < bayesian_optimization.MAX_SIM_STEPS ->
  100 < ep_step ep /\ getMinExpectedNumber s' = 0 /\
  Z.of_nat (ep_calls ep) = Z.of_nat calls + (ep_step ep - step) + 1 /\
  step <= ep_step ep.
Proof.
  cbn zeta.
  funelim (bayesian_optimization.simulation_loop step calls s);
    unfold bayesian_optimization.MAX_SIM_STEPS in *; cbn [ep_session ep_step ep_calls].
  - intros _ Hlt. lia.
  - intros Hs. discriminate.
  - intros Hs _. injection Hs as <-.
    apply andb_prop in Heq as [Hz Hs]. apply Z.eqb_eq in Hz. apply Z.ltb_lt in Hs. lia.
  - intros Hs Hlt.
    match goal with IH : forall _, _ -> _ -> _ |- _ => specialize (IH _ Hs Hlt) end. lia.
Qed.

(** With traffic for ever the whole budget is spent. *)
Lemma simulation_loop_full step calls s :
  never_empty -> step <= bayesian_optimization.MAX_SIM_STEPS ->
  ep_calls (bayesian_optimization.simulation_loop step calls s)
  = (calls + Z.to_nat (bayesian_optimization.MAX_SIM_STEPS - step))%nat.
Proof.
  intros Hne.
  funelim (bayesian_optimization.simulation_loop step calls s);
    unfold bayesian_optimization.MAX_SIM_STEPS in *; cbn [ep_calls]; intros Hle.
  - lia.
  - destruct (Hne s) as [_ (s1 & Hs1 & _)]. congruence.
  - destruct (Hne s) as [_ (s1 & Hs1 & Hpos)].
    assert (s1 = s') by congruence. subst s1.
    apply andb_prop in Heq as [Hz _]. apply Z.eqb_eq in Hz. lia.
  - match goal with IH : never_empty -> _ |- _ => rewrite (IH Hne) by lia end. lia.
Qed.

Lemma evaluation_loop_full step calls s :
  never_empty -> step <= final_evaluation.MAX_SIM_STEPS ->
  ep_calls (final_evaluation.evaluation_loop step calls s)
  = (calls + Z.to_nat (final_evaluation.MAX_SIM_STEPS - step))%nat.
Proof.
  intros Hne.
  funelim (final_evaluation.evaluation_loop step calls s);
    unfold final_evaluation.MAX_SIM_STEPS in *; cbn [ep_calls]; intros Hle.
  - destruct (Hne s) as [Hpos _]. lia.
  - lia.
  - match goal with IH : never_empty -> _ |- _ => rewrite (IH Hne) by lia end. lia.
  - destruct (Hne s) as [_ (s1 & Hs1 & _)]. congruence.
Qed.

(** The final-evaluation loop tests the simulator before the first step. *)
Lemma evaluation_loop_empty step calls s :
  getMinExpectedNumber s <= 0 ->
  final_evaluation.evaluation_loop step calls s = Episode _ (Ok s) step calls.
Proof.
  intros Hz. simp evaluation_loop.
  destruct (Z_lt_dec 0 (getMinExpectedNumber s)) as [Hpos | Hnpos]; [lia|].
  reflexivity.
Qed.

End Loops.

(** *** Scoring a trip report *)

Section Scoring.
Context {N : Numeric}.

Lemma comprehension_length {A B} (f : A -> result B) l ys :
  comprehension f l = Ok ys -> length ys = length l.
Proof.
  revert ys. induction l as [| x l IH]; intros ys Hys; cbn in Hys.
  - injection Hys as <-. reflexivity.
  - destruct (f x) as [y | e]; cbn in Hys; [| discriminate].
    destruct (comprehension f l) as [ys' | e]; cbn in Hys; [| discriminate].
    injection Hys as <-. cbn. f_equal. apply IH. reflexivity.
Qed.

Lemma comprehension_raises {A B} (f : A -> result B) l e :
  comprehension f l = Raise e -> exists x, f x = Raise e.
Proof.
  induction l as [| x l IH]; intros He; cbn in He; [discriminate|].
  destruct (f x) as [y | e'] eqn:Hx; cbn in He.
  - destruct (comprehension f l) as [ys' | e'']; cbn in He; [discriminate|].
    injection He as ->. apply IH. reflexivity.
  - injection He as ->. eauto.
Qed.

(** A comprehension returns when its body does on every element, and
    otherwise raises what the body raises on the first element it fails on. *)
Lemma comprehension_ok {A B} (f : A -> result B) l ys :
  comprehension f l = Ok ys <-> Forall2 (fun x y => f x = Ok y) l ys.
Proof.
  revert ys. induction l as [| x l IH]; intros ys; cbn; split.
  - intros [= <-]. constructor.
  - intros Hall. inversion Hall. reflexivity.
  - destruct (f x) as [y | e] eqn:Hx; cbn; [| discriminate].
    destruct (comprehension f l) as [ys' | e] eqn:Hl; cbn; [| discriminate].
    intros [= <-]. constructor; [exact Hx|]. apply IH. reflexivity.
  - intros Hall. inversion Hall as [| x' y l' ys' Hx Hrest]; subst.
    rewrite Hx. cbn. apply IH in Hrest. rewrite Hrest. reflexivity.
Qed.

Lemma comprehension_first_raise {A B} (f : A -> result B) l e :
  comprehension f l = Raise e ->
  exists before x after,
    l = before ++ x :: after /\
    Forall (fun t => exists y, f t = Ok y) before /\
    f x = Raise e.
Proof.
  induction l as [| x l IH]; intros He; cbn in He; [discriminate|].
  destruct (f x) as [y | e'] eqn:Hx; cbn in He.
  - destruct (comprehension f l) as [ys' | e''] eqn:Hl; cbn in He; [discriminate|].
    injection He as ->.
    destruct (IH eq_refl) as (before & x' & after & -> & Hbefore & Hx').
    exists (x :: before), x', after. split; [reflexivity|]. split; [| exact Hx'].
    constructor; [eauto | exact Hbefore].
  - injection He as ->. exists [], x, l. split; [reflexivity|]. split; [constructor | exact Hx].
Qed.

(** Reading the waiting times raises nothing the [except] clause catches. *)
Lemma waiting_times_raises root e :
  waiting_times root = Raise e -> e = TypeError \/ e = ValueError.
Proof.
  intros He. apply comprehension_raises in He as [trip Htrip].
  unfold py_float in Htrip.
  destruct (ET.get trip "waitingTime") as [v |]; [| injection Htrip as <-; auto].
  destruct (float_of_str v); [discriminate | injection Htrip as <-; auto].
Qed.

Lemma waiting_times_nil root :
  ET.findall root "tripinfo" = [] <-> waiting_times root = Ok [].
Proof.
  unfold waiting_times. split.
  - intros ->. reflexivity.
  - intros Hw. apply comprehension_length in Hw.
    destruct (ET.findall root "tripinfo"); [reflexivity | discriminate].
Qed.

Lemma scenario_score_reduction w :
  bayesian_optimization.scenario_score w = reduction 36000 w.
Proof.
  unfold bayesian_optimization.scenario_score, reduction, ET.parse.
  destruct (w !! "temp_tripinfo.xml"%string) as [[root | c] |]; try reflexivity.
  cbn [mbind result_bind].
  destruct (waiting_times root) as [[| t wt] | e] eqn:Hw; cbn [mbind result_bind];
    try reflexivity.
  destruct (waiting_times_raises root e Hw) as [-> | ->]; reflexivity.
Qed.

Lemma reduce_report_reduction w :
  final_evaluation.reduce_report w = reduction 3600 w.
Proof.
  unfold final_evaluation.reduce_report, reduction, ET.parse.
  destruct (w !! "temp_tripinfo.xml"%string) as [[root | c] |]; try reflexivity.
  cbn [mbind result_bind].
  destruct (waiting_times root) as [[| t wt] | e] eqn:Hw; cbn [mbind result_bind];
    try reflexivity.
  destruct (waiting_times_raises root e Hw) as [-> | ->]; reflexivity.
Qed.

Lemma reduction_degenerate penalty w :
  degenerate_report w = true -> reduction penalty w = Ok (PyInt penalty).
Proof.
  unfold degenerate_report, reduction.
  destruct (w !! "temp_tripinfo.xml"%string) as [[root | c] |]; try reflexivity.
  destruct (ET.findall root "tripinfo") eqn:Hf; [| discriminate].
  intros _. apply waiting_times_nil in Hf. rewrite Hf. reflexivity.
Qed.

Lemma reduction_int penalty w z :
  reduction penalty w = Ok (PyInt z) -> degenerate_report w = true /\ z = penalty.
Proof.
  unfold degenerate_report, reduction.
  destruct (w !! "temp_tripinfo.xml"%string) as [[root | c] |].
  - destruct (waiting_times root) as [[| t wt] | e] eqn:Hw; try discriminate.
    apply waiting_times_nil in Hw. rewrite Hw. intros [= <-]. auto.
  - intros [= <-]. auto.
  - intros [= <-]. auto.
Qed.

Lemma reduction_mean penalty w root wait_time :
  degenerate_report w = false ->
  ET.parse w "temp_tripinfo.xml" = Ok root ->
  waiting_times root = Ok wait_time ->
  reduction penalty w = Ok (PyFloat (np_mean wait_time)).
Proof.
  unfold degenerate_report, reduction, ET.parse.
  destruct (w !! "temp_tripinfo.xml"%string) as [[root' | c] |]; try discriminate.
  intros Hd [= ->] Hw. rewrite Hw.
  destruct wait_time as [| t wt]; [| reflexivity].
  apply waiting_times_nil in Hw. rewrite Hw in Hd. discriminate.
Qed.

Lemma reduction_is_score penalty w a :
  reduction penalty w = Ok a -> is_score penalty a.
Proof.
  destruct a as [z | x]; [| intros _; exact I].
  intros Hz. apply reduction_int in Hz as [_ ->]. reflexivity.
Qed.

End Scoring.

(** *** The scenario loop *)

Section Scenarios.
Context {T : Traci} {N : Numeric}.

Lemma run_scenario_is_score tl cfg w score w' :
  bayesian_optimization.run_scenario tl cfg w = Ok (score, w') ->
  is_score 36000 score.
Proof.
  unfold bayesian_optimization.run_scenario.
  destruct (traci_start _ w) as [s0 | e]; cbn [mbind result_bind]; [| discriminate].
  destruct (ep_session _) as [s | e]; cbn [mbind result_bind]; [| discriminate].
  destruct (bayesian_optimization.scenario_score _) as [a | e] eqn:Ha;
    cbn [mbind result_bind]; [| discriminate].
  intros [= <- <-]. rewrite scenario_score_reduction in Ha.
  eapply reduction_is_score, Ha.
Qed.

Lemma evaluate_scenarios_scores tl scenarios : forall acc w scores w',
  bayesian_optimization.evaluate_scenarios tl scenarios acc w = Ok (scores, w') ->
  Forall (is_score 36000) acc ->
  Forall (is_score 36000) scores /\
  length scores = (length acc + length scenarios)%nat.
Proof.
  induction scenarios as [| cfg rest IH]; intros acc w scores w' He Hacc; cbn in He.
  - injection He as <- <-. split; [exact Hacc | cbn; lia].
  - destruct (bayesian_optimization.run_scenario tl cfg w) as [[score w1] | e] eqn:Hr;
      cbn [mbind result_bind] in He; [| discriminate].
    apply IH in He as [Hs Hl].
    + split; [exact Hs|]. rewrite Hl, length_app. cbn. lia.
    + apply Forall_app. split; [exact Hacc|].
      apply Forall_cons. split; [| constructor].
      eapply run_scenario_is_score, Hr.
Qed.

End Scenarios.

(** *** The plan document *)

Lemma tl_document_intersections ns ew :
  map (fun tl => ET.get tl "id") (ET.children (bayesian_optimization.tl_document ns ew))
  = map Some ["J_0_0"; "J_0_1"; "J_0_2"; "J_1_0"; "J_1_1"; "J_1_2";
              "J_2_0"; "J_2_1"; "J_2_2"]%string.
Proof. reflexivity. Qed.

Lemma tl_document_durations ns ew :
  Forall (fun tl => phase_durations tl
                    = [Some (py_str ns); Some "3"; Some (py_str ew); Some "3"]%string)
         (ET.children (bayesian_optimization.tl_document ns ew)).
Proof. repeat constructor. Qed.

(** Only zero prints as ["0"]. *)
Lemma py_str_zero z : py_str z = "0"%string -> z = 0.
Proof.
  unfold py_str. destruct z as [| p | p]; [reflexivity | |]; intros Hs.
  - apply (f_equal NilZero.int_of_string) in Hs.
    cbn [Z.to_int] in Hs. rewrite NilZero.isi in Hs.
    + injection Hs as Hs. destruct (Unsigned.to_uint_nonzero p Hs).
    + intros [= Hn]. destruct (Unsigned.to_uint_nonnil p Hn).
    + discriminate.
  - discriminate.
Qed.

(** The bounds of the green split are reached at the shortest cycle. *)
Example green_times_shortest_cycle :
  bayesian_optimization.green_times 20 lit_0_3 = Ok (4, 10) /\
  bayesian_optimization.green_times 20 lit_0_7 = Ok (9, 5).
Proof. split; reflexivity. Qed.

(** ** Properties of the specification *)

(** C1. The resilience objective returns the maximum, not the average, of
    the per-scenario scores over the three fixed scenarios: the returned
    score is one of the scores the scenario loop collected and none of them
    is greater. For the scores [[10.0, 50.0, 20.0]] the maximum is [50.0]. *)
Theorem objective_function_returns_max :
  py_max [PyFloat (of_Z 10); PyFloat (of_Z 50); PyFloat (of_Z 20)]
    = Ok (PyFloat (of_Z 50)) /\
  forall (T : Traci) (N : Numeric) cycle_length ns_green_ratio w resilience_score w',
    bayesian_optimization.objective_function (cycle_length, ns_green_ratio) w
      = Ok (resilience_score, w') ->
    exists w1 scenario_scores,
      bayesian_optimization.generate_tl_program cycle_length ns_green_ratio
        "temp_tls.add.xml" w = Ok w1 /\
      bayesian_optimization.evaluate_scenarios "temp_tls.add.xml"
        bayesian_optimization.SCENARIOS [] w1 = Ok (scenario_scores, w') /\
      length scenario_scores = length bayesian_optimization.SCENARIOS /\
      resilience_score ∈ scenario_scores /\
      forall s, s ∈ scenario_scores -> py_gt s resilience_score = false.
Proof.
  split; [vm_compute; reflexivity|].
  intros T N c r w score w' Hobj.
  unfold bayesian_optimization.objective_function in Hobj.
  destruct (bayesian_optimization.generate_tl_program c r _ w) as [w1 | e] eqn:Hgen;
    cbn [mbind result_bind] in Hobj; [| discriminate].
  destruct (bayesian_optimization.evaluate_scenarios _ _ [] w1) as [[scores w2] | e] eqn:Hev;
    cbn [mbind result_bind] in Hobj; [| discriminate].
  destruct (py_max scores) as [r' | e] eqn:Hmax; cbn [mbind result_bind] in Hobj;
    [| discriminate].
  injection Hobj as -> ->.
  apply evaluate_scenarios_scores in Hev as Hsc; [| constructor].
  destruct Hsc as [Hsc Hlen].
  destruct (py_max_spec 36000 scores score Hsc Hmax) as [Hin Hge].
  exists w1, scores. repeat split; assumption.
Qed.

Lemma objective_function_returns_max_witness :
  exists resilience_score w',
    bayesian_optimization.objective_function
      (T := Fixture.countdown 3 Fixture.reports) (N := Fixture.numeric)
      (60, lit_0_5) ∅ = Ok (resilience_score, w') /\
    resilience_score = PyFloat (of_Z 50) /\
    exists w1 scenario_scores,
      bayesian_optimization.generate_tl_program 60 lit_0_5 "temp_tls.add.xml" ∅ = Ok w1 /\
      bayesian_optimization.evaluate_scenarios
        (T := Fixture.countdown 3 Fixture.reports) (N := Fixture.numeric)
        "temp_tls.add.xml" bayesian_optimization.SCENARIOS [] w1
        = Ok (scenario_scores, w') /\
      length scenario_scores = length bayesian_optimization.SCENARIOS /\
      resilience_score ∈ scenario_scores /\
      forall s, s ∈ scenario_scores -> py_gt s resilience_score = false.
Proof.
  eexists _, _. split; [vm_compute; reflexivity|].
  split; [vm_compute; reflexivity|].
  apply (proj2 objective_function_returns_max
           (Fixture.countdown 3 Fixture.reports) Fixture.numeric 60 lit_0_5 ∅).
  vm_compute. reflexivity.
Defined.

(** C2, as the code has it. The score extraction of [objective_function]
    returns the penalty constant, the int [MAX_SIM_STEPS * 10] = 36000, when
    the trip report is absent, malformed or without trip records. On every
    other report it returns the mean ([numpy.mean]) of the waiting times, a
    float, when each trip record carries a [waitingTime] that [float]
    accepts; when one does not, nothing is returned: the first such record
    raises [TypeError] (no attribute) or [ValueError] (a value [float]
    rejects), which the [except] clause does not catch. *)
Theorem scenario_score_penalty_mean_or_exception :
  forall (N : Numeric) (w : files),
    bayesian_optimization.MAX_SIM_STEPS * 10 = 36000 /\
    (degenerate_report w = true ->
     bayesian_optimization.scenario_score w
       = Ok (PyInt (bayesian_optimization.MAX_SIM_STEPS * 10))) /\
    (degenerate_report w = false ->
     exists root,
       ET.parse w "temp_tripinfo.xml" = Ok root /\
       ((exists wait_time,
           Forall2 (fun trip x => py_float (ET.get trip "waitingTime") = Ok x)
                   (ET.findall root "tripinfo") wait_time /\
           bayesian_optimization.scenario_score w = Ok (PyFloat (np_mean wait_time)))
        \/
        (exists before trip after e,
           ET.findall root "tripinfo" = before ++ trip :: after /\
           Forall (fun t => exists x, py_float (ET.get t "waitingTime") = Ok x) before /\
           py_float (ET.get trip "waitingTime") = Raise e /\
           (e = TypeError \/ e = ValueError) /\
           bayesian_optimization.scenario_score w = Raise e))).
Proof.
  intros N w. split; [reflexivity|]. rewrite scenario_score_reduction.
  change (bayesian_optimization.MAX_SIM_STEPS * 10) with 36000. split.
  - apply reduction_degenerate.
  - intros Hd.
    assert (Hroot : exists root, ET.parse w "temp_tripinfo.xml" = Ok root).
    { revert Hd. unfold degenerate_report, ET.parse.
      destruct (w !! "temp_tripinfo.xml"%string) as [[root | c] |]; try discriminate.
      eauto. }
    destruct Hroot as [root Hroot]. exists root. split; [exact Hroot|].
    destruct (waiting_times root) as [wait_time | e] eqn:Hw.
    + left. exists wait_time. split.
      * apply comprehension_ok. exact Hw.
      * eapply reduction_mean; eassumption.
    + right. pose proof (waiting_times_raises root e Hw) as He.
      destruct (comprehension_first_raise _ _ _ Hw)
        as (before & trip & after & Hf & Hbefore & Htrip).
      exists before, trip, after, e.
      split; [exact Hf|]. split; [exact Hbefore|]. split; [exact Htrip|].
      split; [exact He|].
      revert Hroot. unfold reduction, ET.parse.
      destruct (w !! "temp_tripinfo.xml"%string) as [[root' | c] |]; try discriminate.
      intros [= ->]. rewrite Hw. reflexivity.
Qed.

Lemma scenario_score_penalty_mean_or_exception_witness :
  bayesian_optimization.scenario_score (N := Fixture.numeric) ∅ = Ok (PyInt 36000) /\
  exists root,
    ET.parse Fixture.two_trips "temp_tripinfo.xml" = Ok root /\
    ((exists wait_time,
        Forall2 (fun trip x =>
                   py_float (N := Fixture.numeric) (ET.get trip "waitingTime") = Ok x)
                (ET.findall root "tripinfo") wait_time /\
        bayesian_optimization.scenario_score (N := Fixture.numeric) Fixture.two_trips
          = Ok (PyFloat (np_mean (Numeric := Fixture.numeric) wait_time)))
     \/
     (exists before trip after e,
        ET.findall root "tripinfo" = before ++ trip :: after /\
        Forall (fun t => exists x,
                  py_float (N := Fixture.numeric) (ET.get t "waitingTime") = Ok x) before /\
        py_float (N := Fixture.numeric) (ET.get trip "waitingTime") = Raise e /\
        (e = TypeError \/ e = ValueError) /\
        bayesian_optimization.scenario_score (N := Fixture.numeric) Fixture.two_trips
          = Raise e)).
Proof.
  split.
  - apply (proj1 (proj2 (scenario_score_penalty_mean_or_exception Fixture.numeric ∅))).
    vm_compute. reflexivity.
  - apply (proj2 (proj2 (scenario_score_penalty_mean_or_exception
                           Fixture.numeric Fixture.two_trips))).
    vm_compute. reflexivity.
Defined.

(** C2, as the specification states it, fails: a well-formed report with
    trip records, one of them without [waitingTime], is not degenerate, yet
    the extraction returns neither the penalty nor a mean but raises
    [TypeError]. Nor does the value returned tell the two cases apart: one
    trip that waited 36000 seconds scores the float 36000.0, which is
    neither greater nor smaller than the penalty. *)
Lemma scenario_score_raises_on_record_without_waiting_time :
  degenerate_report Fixture.unfinished_trips = false /\
  bayesian_optimization.scenario_score (N := Fixture.numeric) Fixture.unfinished_trips
    = Raise TypeError /\
  ~ (forall (N : Numeric) (w : files),
       degenerate_report w = false ->
       exists wait_time,
         bayesian_optimization.scenario_score w = Ok (PyFloat (np_mean wait_time))) /\
  (let w : files := <["temp_tripinfo.xml"%string := Fixture.report ["36000"]%string]> ∅ in
   degenerate_report w = false /\
   exists mean,
     bayesian_optimization.scenario_score (N := Fixture.numeric) w = Ok (PyFloat mean) /\
     py_gt (PyFloat mean) (PyInt 36000) = false /\
     py_gt (PyInt 36000) (PyFloat mean) = false).
Proof.
  split; [vm_compute; reflexivity|]. split; [vm_compute; reflexivity|]. split.
  - intros Hall.
    destruct (Hall Fixture.numeric Fixture.unfinished_trips) as [wait_time Hscore].
    + vm_compute. reflexivity.
    + vm_compute in Hscore. discriminate.
  - split; [vm_compute; reflexivity|].
    eexists. split; [vm_compute; reflexivity|].
    split; vm_compute; reflexivity.
Qed.

(** C3. On the parameter domain (cycle length 20..120, ratio between the
    doubles 0.3 and 0.7) the plan is written with phase durations
    [ns, 3, ew, 3] at every intersection, where [ns + ew + 6] is the cycle
    length and both green durations are non-negative integers. *)
Theorem green_split_sums_to_cycle :
  forall (cycle_length : Z) (ns_green_ratio : f64),
    20 <= cycle_length <= 120 ->
    valid ns_green_ratio = true ->
    leb lit_0_3 ns_green_ratio = true -> leb ns_green_ratio lit_0_7 = true ->
    forall (file_path : string) (w : files),
    exists ns_green ew_green : Z,
      bayesian_optimization.generate_tl_program cycle_length ns_green_ratio file_path w
        = Ok (ET.write (bayesian_optimization.tl_document ns_green ew_green) file_path w) /\
      Forall (fun tl => phase_durations tl
                = [Some (py_str ns_green); Some "3"; Some (py_str ew_green); Some "3"]%string)
             (ET.children (bayesian_optimization.tl_document ns_green ew_green)) /\
      ns_green + ew_green + 6 = cycle_length /\
      0 <= ns_green /\ 0 <= ew_green.
Proof.
  intros c r Hc Hv Hlo Hhi p w.
  destruct (green_times_domain c r Hc Hv Hlo Hhi) as (ns & ew & Hg & Hns & Hew & Hsum & _).
  exists ns, ew. unfold bayesian_optimization.generate_tl_program. rewrite Hg.
  split; [reflexivity|]. split; [apply tl_document_durations|]. lia.
Qed.

Lemma green_split_sums_to_cycle_witness :
  exists ns_green ew_green : Z,
    bayesian_optimization.generate_tl_program 21 lit_0_3 "temp_tls.add.xml" ∅
      = Ok (ET.write (bayesian_optimization.tl_document ns_green ew_green)
              "temp_tls.add.xml" ∅) /\
    Forall (fun tl => phase_durations tl
              = [Some (py_str ns_green); Some "3"; Some (py_str ew_green); Some "3"]%string)
           (ET.children (bayesian_optimization.tl_document ns_green ew_green)) /\
    ns_green + ew_green + 6 = 21 /\
    0 <= ns_green /\ 0 <= ew_green.
Proof.
  apply (green_split_sums_to_cycle 21 lit_0_3); [lia | reflexivity ..].
Defined.

(** C4. [generate_tl_program] takes [total_green = cycle_length - 6], gives
    north-south the floor of the float product [total_green * ratio] and
    east-west the remainder, so nothing is lost to rounding. Cycle 21 with
    ratio 0.3 gives 4 and 11; cycle 60 with ratio 0.5 gives the durations
    [27, 3, 27, 3] at every intersection. *)
Theorem green_split_floor_and_remainder :
  (forall (cycle_length : Z) (ns_green_ratio : f64),
     20 <= cycle_length <= 120 ->
     valid ns_green_ratio = true ->
     leb lit_0_3 ns_green_ratio = true -> leb ns_green_ratio lit_0_7 = true ->
     exists ns_green ew_green : Z,
       bayesian_optimization.green_times cycle_length ns_green_ratio
         = Ok (ns_green, ew_green) /\
       math_floor (mul (of_Z (cycle_length - 6)) ns_green_ratio) = Ok ns_green /\
       ew_green = (cycle_length - 6) - ns_green) /\
  bayesian_optimization.green_times 21 lit_0_3 = Ok (4, 11) /\
  bayesian_optimization.green_times 60 lit_0_5 = Ok (27, 27) /\
  (forall (file_path : string) (w : files),
     bayesian_optimization.generate_tl_program 60 lit_0_5 file_path w
       = Ok (ET.write (bayesian_optimization.tl_document 27 27) file_path w)) /\
  Forall (fun tl => phase_durations tl = [Some "27"; Some "3"; Some "27"; Some "3"]%string)
         (ET.children (bayesian_optimization.tl_document 27 27)).
Proof.
  split; [| repeat split; try reflexivity; repeat constructor].
  intros c r Hc Hv Hlo Hhi.
  destruct (green_times_domain c r Hc Hv Hlo Hhi) as (ns & ew & Hg & _ & _ & Hsum & Hfl).
  exists ns, ew. split; [exact Hg|]. split; [exact Hfl | lia].
Qed.

Lemma green_split_floor_and_remainder_witness :
  exists ns_green ew_green : Z,
    bayesian_optimization.green_times 26 lit_0_7 = Ok (ns_green, ew_green) /\
    math_floor (mul (of_Z (26 - 6)) lit_0_7) = Ok ns_green /\
    ew_green = (26 - 6) - ns_green.
Proof.
  apply (proj1 green_split_floor_and_remainder 26 lit_0_7); [lia | reflexivity ..].
Defined.

(** C5, as the code has it. In the optimisation loop an episode that stops
    before the step budget does so only after the settling period: [step]
    has passed 100, at least 102 steps were made and the simulator has just
    reported no expected vehicle. The final-evaluation loop has no settling
    period: it asks the simulator before every step and stops at once, with
    no step made, when no vehicle is expected at the start. *)
Theorem settling_period_only_in_optimization_loop :
  forall (T : Traci) (s0 : session),
    stops_only_after_settling (bayesian_optimization.simulation_loop 0 0 s0) /\
    (forall s,
       ep_session (bayesian_optimization.simulation_loop 0 0 s0) = Ok s ->
       ep_step (bayesian_optimization.simulation_loop 0 0 s0)
         < bayesian_optimization.MAX_SIM_STEPS ->
       (102 <= ep_calls (bayesian_optimization.simulation_loop 0 0 s0))%nat /\
       getMinExpectedNumber s = 0) /\
    (getMinExpectedNumber s0 <= 0 ->
     final_evaluation.evaluation_loop 0 0 s0 = Episode T (Ok s0) 0 0).
Proof.
  intros T s0. split; [| split].
  - intros s Hs Hlt.
    destruct (simulation_loop_early 0 0%nat s0 s Hs Hlt) as (Hst & _). exact Hst.
  - intros s Hs Hlt.
    destruct (simulation_loop_early 0 0%nat s0 s Hs Hlt) as (Hst & Hz & Hcalls & _).
    split; [lia | exact Hz].
  - apply evaluation_loop_empty.
Qed.

Lemma settling_period_only_in_optimization_loop_witness :
  ep_calls (bayesian_optimization.simulation_loop
              (T := Fixture.countdown 3 Fixture.reports) 0 0 (3%nat, ""%string)) = 102%nat /\
  ((102 <= ep_calls (bayesian_optimization.simulation_loop
                      (T := Fixture.countdown 3 Fixture.reports) 0 0 (3%nat, ""%string)))%nat /\
   getMinExpectedNumber (Traci := Fixture.countdown 3 Fixture.reports) (0%nat, ""%string) = 0) /\
  final_evaluation.evaluation_loop (T := Fixture.countdown 0 Fixture.reports)
    0 0 (0%nat, ""%string)
  = Episode (Fixture.countdown 0 Fixture.reports) (Ok (0%nat, ""%string)) 0 0.
Proof.
  split; [vm_compute; reflexivity|]. split.
  - apply (proj1 (proj2 (settling_period_only_in_optimization_loop
                           (Fixture.countdown 3 Fixture.reports) (3%nat, ""%string)))).
    + vm_compute. reflexivity.
    + vm_compute. reflexivity.
  - apply (proj2 (proj2 (settling_period_only_in_optimization_loop
                           (Fixture.countdown 0 Fixture.reports) (0%nat, ""%string)))).
    vm_compute. discriminate.
Defined.

(** C5, as the specification states it, fails for the final-evaluation
    loop: with no vehicle expected at the start the episode stops at step
    0 without a single step. *)
Lemma evaluation_loop_stops_at_step_0 :
  getMinExpectedNumber (Traci := Fixture.countdown 0 Fixture.reports) (0%nat, ""%string) = 0 /\
  final_evaluation.evaluation_loop (T := Fixture.countdown 0 Fixture.reports)
    0 0 (0%nat, ""%string)
  = Episode (Fixture.countdown 0 Fixture.reports) (Ok (0%nat, ""%string)) 0 0 /\
  ~ (forall (T : Traci) (s0 : session),
       stops_only_after_settling (bayesian_optimization.simulation_loop 0 0 s0) /\
       stops_only_after_settling (final_evaluation.evaluation_loop 0 0 s0)).
Proof.
  split; [reflexivity|]. split; [vm_compute; reflexivity|].
  intros Hall.
  destruct (Hall (Fixture.countdown 0 Fixture.reports) (0%nat, ""%string)) as [_ Hfe].
  specialize (Hfe (0%nat, ""%string)).
  assert (Hstep : 100 < 0); [| lia].
  apply Hfe; vm_compute; reflexivity.
Qed.

(** C6, as the code has it. [run_single_evaluation] reduces the trip report
    like the score extraction of [objective_function], penalty branch
    included, with a penalty of its own: a missing, malformed or empty
    report gives [MAX_SIM_STEPS] (3600) instead of 36000, and every other
    report gives what the score extraction gives - the same mean of the
    waiting times. *)
Theorem reduce_report_keeps_penalty_branch :
  forall (N : Numeric) (w : files),
    (degenerate_report w = true ->
     final_evaluation.reduce_report w = Ok (PyInt final_evaluation.MAX_SIM_STEPS)) /\
    (degenerate_report w = false ->
     final_evaluation.reduce_report w = bayesian_optimization.scenario_score w) /\
    (forall root wait_time,
       degenerate_report w = false ->
       ET.parse w "temp_tripinfo.xml" = Ok root ->
       waiting_times root = Ok wait_time ->
       final_evaluation.reduce_report w = Ok (PyFloat (np_mean wait_time))).
Proof.
  intros N w. rewrite reduce_report_reduction, scenario_score_reduction.
  split; [| split].
  - apply reduction_degenerate.
  - unfold degenerate_report, reduction.
    destruct (w !! "temp_tripinfo.xml"%string) as [[root | c] |]; try discriminate.
    destruct (ET.findall root "tripinfo") as [| trip trips] eqn:Hf; [discriminate|].
    intros _.
    destruct (waiting_times root) as [[| t wt] | err] eqn:Hw; try reflexivity.
    apply waiting_times_nil in Hw. rewrite Hw in Hf. discriminate.
  - intros root wait_time Hd Hp Hw. eapply reduction_mean; eassumption.
Qed.

Lemma reduce_report_keeps_penalty_branch_witness :
  final_evaluation.reduce_report (N := Fixture.numeric) ∅ = Ok (PyInt 3600) /\
  final_evaluation.reduce_report (N := Fixture.numeric) Fixture.two_trips
  = bayesian_optimization.scenario_score (N := Fixture.numeric) Fixture.two_trips.
Proof.
  split.
  - apply (proj1 (reduce_report_keeps_penalty_branch Fixture.numeric ∅)).
    vm_compute. reflexivity.
  - apply (proj1 (proj2 (reduce_report_keeps_penalty_branch
                           Fixture.numeric Fixture.two_trips))).
    vm_compute. reflexivity.
Defined.

(** C6, as the specification states it, fails: on a missing report the
    reduction without a penalty branch raises [FileNotFoundError], while
    [run_single_evaluation] catches it and returns the penalty 3600. *)
Lemma reduce_report_is_not_penalty_free :
  final_evaluation.reduce_report (N := Fixture.numeric) ∅ = Ok (PyInt 3600) /\
  mean_without_penalty (N := Fixture.numeric) ∅ = Raise FileNotFoundError /\
  ~ (forall (N : Numeric) (w : files),
       final_evaluation.reduce_report w = mean_without_penalty w).
Proof.
  split; [reflexivity|]. split; [reflexivity|].
  intros Hall. specialize (Hall Fixture.numeric ∅). discriminate.
Qed.

(** C7. Plan generation is deterministic and idempotent: what it writes (or
    the exception it raises) is fixed by the cycle length and the ratio
    alone, whatever the path and the files already there, and writing the
    plan a second time changes nothing. *)
Theorem generate_tl_program_deterministic :
  forall (cycle_length : Z) (ns_green_ratio : f64),
  exists plan : result ET.element,
    (forall (file_path : string) (w : files),
       bayesian_optimization.generate_tl_program cycle_length ns_green_ratio file_path w
       = (root ← plan; Ok (<[file_path := ET.XmlFile root]> w))) /\
    (forall (file_path : string) (w w' : files),
       bayesian_optimization.generate_tl_program cycle_length ns_green_ratio file_path w
         = Ok w' ->
       bayesian_optimization.generate_tl_program cycle_length ns_green_ratio file_path w'
         = Ok w' /\
       exists root, plan = Ok root /\ w' !! file_path = Some (ET.XmlFile root)).
Proof.
  intros c r.
  exists ('(ns, ew) ← bayesian_optimization.green_times c r;
          Ok (bayesian_optimization.tl_document ns ew)).
  unfold bayesian_optimization.generate_tl_program, ET.write.
  destruct (bayesian_optimization.green_times c r) as [[ns ew] | e];
    cbn [mbind result_bind].
  - split; [reflexivity|]. intros p w w' [= <-]. split.
    + rewrite insert_insert_eq. reflexivity.
    + eexists. split; [reflexivity|]. apply lookup_insert_eq.
  - split; [reflexivity|]. intros p w w' Hw. discriminate.
Qed.

Lemma generate_tl_program_deterministic_witness :
  exists plan : result ET.element,
    (forall (file_path : string) (w : files),
       bayesian_optimization.generate_tl_program 60 lit_0_5 file_path w
       = (root ← plan; Ok (<[file_path := ET.XmlFile root]> w))) /\
    bayesian_optimization.generate_tl_program 60 lit_0_5 "temp_tls.add.xml"
      (<["temp_tls.add.xml"%string :=
           ET.XmlFile (bayesian_optimization.tl_document 27 27)]> ∅)
    = Ok (<["temp_tls.add.xml"%string :=
              ET.XmlFile (bayesian_optimization.tl_document 27 27)]> ∅).
Proof.
  destruct (generate_tl_program_deterministic 60 lit_0_5) as (plan & Hplan & Hidem).
  exists plan. split; [exact Hplan|].
  apply (Hidem "temp_tls.add.xml"%string ∅). vm_compute. reflexivity.
Defined.

(** C8. Every stepping loop terminates (both are total functions, by
    well-founded recursion on the steps left) after at most
    [MAX_SIM_STEPS] = 3600 calls of [traci.simulationStep]; nothing else
    bounds an episode: a simulator that always expects vehicles is stepped
    the full 3600 times by either loop. *)
Theorem stepping_loops_bounded_by_budget :
  forall (T : Traci) (s0 : session),
    (ep_calls (bayesian_optimization.simulation_loop 0 0 s0) <= 3600)%nat /\
    (ep_calls (final_evaluation.evaluation_loop 0 0 s0) <= 3600)%nat /\
    (never_empty ->
     ep_calls (bayesian_optimization.simulation_loop 0 0 s0) = 3600%nat /\
     ep_calls (final_evaluation.evaluation_loop 0 0 s0) = 3600%nat).
Proof.
  intros T s0. split; [| split].
  - apply (simulation_loop_calls 0 0%nat s0).
  - apply (evaluation_loop_calls 0 0%nat s0).
  - intros Hne. split.
    + apply (simulation_loop_full 0 0%nat s0 Hne). discriminate.
    + apply (evaluation_loop_full 0 0%nat s0 Hne). discriminate.
Qed.

Lemma stepping_loops_bounded_by_budget_witness :
  ep_calls (bayesian_optimization.simulation_loop (T := Fixture.endless) 0 0 tt) = 3600%nat /\
  ep_calls (final_evaluation.evaluation_loop (T := Fixture.endless) 0 0 tt) = 3600%nat.
Proof.
  apply (proj2 (proj2 (stepping_loops_bounded_by_budget Fixture.endless tt))).
  intros s. split; [reflexivity|]. exists tt. split; [destruct s|]; reflexivity.
Defined.

(** C9. On the parameter domain both green phases written to the plan are
    strictly positive: north-south is at least 4 seconds and east-west at
    least 5, at every intersection, so no duration ["0"] is written for a
    green phase. *)
Theorem green_phases_positive :
  forall (cycle_length : Z) (ns_green_ratio : f64),
    20 <= cycle_length <= 120 ->
    valid ns_green_ratio = true ->
    leb lit_0_3 ns_green_ratio = true -> leb ns_green_ratio lit_0_7 = true ->
    forall (file_path : string) (w : files),
    exists ns_green ew_green : Z,
      bayesian_optimization.generate_tl_program cycle_length ns_green_ratio file_path w
        = Ok (ET.write (bayesian_optimization.tl_document ns_green ew_green) file_path w) /\
      Forall (fun tl => phase_durations tl
                = [Some (py_str ns_green); Some "3"; Some (py_str ew_green); Some "3"]%string)
             (ET.children (bayesian_optimization.tl_document ns_green ew_green)) /\
      4 <= ns_green /\ 5 <= ew_green /\
      py_str ns_green <> "0"%string /\ py_str ew_green <> "0"%string.
Proof.
  intros c r Hc Hv Hlo Hhi p w.
  destruct (green_times_domain c r Hc Hv Hlo Hhi) as (ns & ew & Hg & Hns & Hew & _).
  exists ns, ew. unfold bayesian_optimization.generate_tl_program. rewrite Hg.
  split; [reflexivity|]. split; [apply tl_document_durations|].
  split; [exact Hns|]. split; [exact Hew|].
  split; intros Hz; apply py_str_zero in Hz; lia.
Qed.

Lemma green_phases_positive_witness :
  exists ns_green ew_green : Z,
    bayesian_optimization.generate_tl_program 20 lit_0_7 "temp_tls.add.xml" ∅
      = Ok (ET.write (bayesian_optimization.tl_document ns_green ew_green)
              "temp_tls.add.xml" ∅) /\
    Forall (fun tl => phase_durations tl
              = [Some (py_str ns_green); Some "3"; Some (py_str ew_green); Some "3"]%string)
           (ET.children (bayesian_optimization.tl_document ns_green ew_green)) /\
    4 <= ns_green /\ 5 <= ew_green /\
    py_str ns_green <> "0"%string /\ py_str ew_green <> "0"%string.
Proof.
  apply (green_phases_positive 20 lit_0_7); [lia | reflexivity ..].
Defined.

(** C10. For the same degenerate trip report the two drivers return
    different penalties: [objective_function] scores it
    [MAX_SIM_STEPS * 10] = 36000 and [run_single_evaluation] 
    [MAX_SIM_STEPS] = 3600, a tenth of it. *)
Theorem penalties_differ_tenfold :
  forall (N : Numeric) (w : files),
    degenerate_report w = true ->
    bayesian_optimization.scenario_score w
      = Ok (PyInt (bayesian_optimization.MAX_SIM_STEPS * 10)) /\
    final_evaluation.reduce_report w = Ok (PyInt final_evaluation.MAX_SIM_STEPS) /\
    bayesian_optimization.MAX_SIM_STEPS * 10 = 36000 /\
    final_evaluation.MAX_SIM_STEPS = 3600 /\
    bayesian_optimization.MAX_SIM_STEPS * 10 = 10 * final_evaluation.MAX_SIM_STEPS.
Proof.
  intros N w Hd. rewrite reduce_report_reduction, scenario_score_reduction.
  split; [apply reduction_degenerate, Hd|].
  split; [apply reduction_degenerate, Hd|].
  repeat split.
Qed.

Lemma penalties_differ_tenfold_witness :
  bayesian_optimization.scenario_score (N := Fixture.numeric) ∅ = Ok (PyInt 36000) /\
  final_evaluation.reduce_report (N := Fixture.numeric) ∅ = Ok (PyInt 3600).
Proof.
  destruct (penalties_differ_tenfold Fixture.numeric ∅) as (Hbo & Hfe & _).
  - vm_compute. reflexivity.
  - split; [exact Hbo | exact Hfe].
Defined.

(** * Further properties *)

(** ** The green split against exact arithmetic *)

(** The rounded product behind [green_times], for a cycle length of the
    domain and a normalised ratio in [0.25, 1): the north-south green time
    is [m2 / 2 ^ k], where [m2] is the 53-bit mantissa after rounding. *)
Lemma green_times_rounded c m e :
  20 <= c <= 120 -> 2 ^ 52 <= Zpos m < 2 ^ 53 -> e = -54 \/ e = -53 ->
  exists a n k m2,
    0 <= a /\ 0 <= n /\ 46 <= k /\
    2 ^ a * 2 ^ (- e) = 2 ^ n * 2 ^ k /\
    ((c - 6) * 2 ^ a * Zpos m) / 2 ^ n <= m2 <= ((c - 6) * 2 ^ a * Zpos m) / 2 ^ n + 1 /\
    bayesian_optimization.green_times c (S754_finite false m e)
      = Ok (m2 / 2 ^ k, (c - 6) - m2 / 2 ^ k) /\
    math_floor (mul (of_Z (c - 6)) (S754_finite false m e)) = Ok (m2 / 2 ^ k).
Proof.
  intros Hc Hm He.
  set (g := c - 6). assert (Hg : 14 <= g <= 114) by (unfold g; lia).
  pose proof (log2_green g Hg) as Hlg.
  destruct (of_Z_small g) as (x & Hx & Hxv).
  { rewrite pow2_53. lia. }
  set (a := 53 - (Z.log2 g + 1)) in *.
  replace (Z.log2 g + 1 - 53) with (- a) in Hx by (unfold a; lia).
  assert (Ha : 46 <= a <= 49) by (unfold a; lia).
  assert (Hmul : mul (of_Z g) (S754_finite false m e) =
                 binary_round_aux prec emax false (Zpos (x * m)) (- a + e) loc_Exact).
  { rewrite Hx. reflexivity. }
  assert (HP : Zpos (x * m) = g * 2 ^ a * Zpos m)
    by (rewrite Pos2Z.inj_mul, Hxv; reflexivity).
  assert (Hx52 : 2 ^ 52 <= Zpos x < 2 ^ 53).
  { destruct (Z.log2_spec g ltac:(lia)) as [Hl1 Hl2].
    rewrite Hxv. replace 52 with (Z.log2 g + a) by (unfold a; lia).
    replace 53 with (Z.succ (Z.log2 g) + a) by (unfold a; lia).
    rewrite !Z.pow_add_r by lia.
    assert (0 < 2 ^ a) by (apply Z.pow_pos_nonneg; lia).
    split; [apply Z.mul_le_mono_nonneg_r | apply Z.mul_lt_mono_pos_r]; lia. }
  assert (Hd : 104 <= Z.log2 (Zpos (x * m)) <= 105).
  { rewrite Pos2Z.inj_mul. split.
    - apply Z.log2_le_pow2; [lia|]. change 104 with (52 + 52).
      rewrite Z.pow_add_r by lia. apply Z.mul_le_mono_nonneg; lia.
    - assert (Z.log2 (Zpos x * Zpos m) < 106); [| lia].
      apply Z.log2_lt_pow2; [lia|]. change 106 with (53 + 53).
      rewrite Z.pow_add_r by lia. apply Z.mul_lt_mono_nonneg; lia. }
  destruct (binary_round_aux_round false (x * m) (- a + e))
    as (m' & e' & m2 & Hr & Hm2 & He' & Hm').
  { lia. } { lia. } { lia. }
  set (n := Z.log2 (Zpos (x * m)) + 1 - 53) in *.
  set (b := - e) in *.
  assert (Hb : 53 <= b <= 54) by (unfold b; lia).
  assert (Hek : - a + e + n = - (a + b - n)) by (unfold b; lia).
  rewrite Hek in He', Hm'.
  set (k := a + b - n) in *.
  assert (Hk : 46 <= k <= 51) by (unfold k; lia).
  assert (Hns : int_of_float (S754_finite false m' e') = Ok (m2 / 2 ^ k) /\
                math_floor (S754_finite false m' e') = Ok (m2 / 2 ^ k)).
  { rewrite int_of_float_pos, math_floor_pos by lia. rewrite Hm'.
    assert (0 < 2 ^ (e' - - k)) by (apply Z.pow_pos_nonneg; lia).
    assert (0 < 2 ^ (- e')) by (apply Z.pow_pos_nonneg; lia).
    rewrite Z.div_div by lia.
    rewrite <- Z.pow_add_r by lia.
    replace (e' - - k + - e') with k by lia. split; reflexivity. }
  destruct Hns as [Hint Hfloor].
  exists a, n, k, m2.
  split; [lia|]. split; [lia|]. split; [lia|].
  split; [rewrite <- !Z.pow_add_r by lia; f_equal; unfold k; lia|].
  split; [rewrite <- HP; exact Hm2|].
  split.
  - unfold bayesian_optimization.green_times, mul_int_float, float_of_int.
    fold g. rewrite Hx. cbn [mbind result_bind]. rewrite <- Hx, Hmul, Hr.
    cbn [mbind result_bind]. rewrite Hint. reflexivity.
  - fold g. rewrite Hmul, Hr. exact Hfloor.
Qed.

Lemma bracket_arith g m twoa twob twon K q m2 :
  0 <= g -> 0 < m -> 0 < twoa -> 0 < twob -> 0 < twon -> 0 < K ->
  twoa * twob = twon * K ->
  q = (g * twoa * m) / twon ->
  q <= m2 <= q + 1 ->
  (g * m) / twob <= m2 / K <= (g * m) / twob + 1.
Proof.
  intros Hg Hm Ha Hb Hn HK HA Hq Hm2.
  assert (HF : q / K = (g * m) / twob).
  { rewrite Hq, Z.div_div by lia. rewrite <- HA.
    replace (g * twoa * m) with (twoa * (g * m)) by ring.
    apply Z.div_mul_cancel_l; lia. }
  rewrite <- HF. split.
  - apply Z.div_le_mono; lia.
  - apply Z.le_trans with ((q + 1 * K) / K).
    + apply Z.div_le_mono; lia.
    + rewrite Z.div_add by lia. lia.
Qed.

(** X1. On the parameter domain the north-south green time is the floor of
    the exact product of the green time and the ratio, or one second more:
    the float product is rounded before it is truncated, and the rounding
    can carry it up to the next integer. *)
Theorem ns_green_is_exact_floor_or_one_more :
  forall (cycle_length : Z) (ns_green_ratio : f64),
    20 <= cycle_length <= 120 ->
    valid ns_green_ratio = true ->
    leb lit_0_3 ns_green_ratio = true -> leb ns_green_ratio lit_0_7 = true ->
    exists exact ns_green ew_green : Z,
      exact_product_floor (cycle_length - 6) ns_green_ratio = Some exact /\
      bayesian_optimization.green_times cycle_length ns_green_ratio
        = Ok (ns_green, ew_green) /\
      (ns_green = exact \/ ns_green = exact + 1).
Proof.
  intros c r Hc Hv Hlo Hhi.
  destruct (ratio_range r Hv Hlo Hhi) as (m & e & -> & Hm & He).
  assert (He' : e = -54 \/ e = -53) by (destruct He as [[? _] | [? _]]; auto).
  destruct (green_times_rounded c m e Hc Hm He')
    as (a & n & k & m2 & Ha & Hn & Hk & HA & Hm2 & Hg & _).
  exists (((c - 6) * Zpos m) / 2 ^ (- e)), (m2 / 2 ^ k), (c - 6 - m2 / 2 ^ k).
  split.
  - unfold exact_product_floor, signed_mantissa, cond_Zopp.
    destruct (Z.leb_spec 0 e); [lia | reflexivity].
  - split; [exact Hg|].
    assert (Hbr : (c - 6) * Zpos m / 2 ^ (- e) <= m2 / 2 ^ k
                  <= (c - 6) * Zpos m / 2 ^ (- e) + 1).
    { apply (bracket_arith (c - 6) (Zpos m) (2 ^ a) (2 ^ (- e)) (2 ^ n) (2 ^ k)
               ((c - 6) * 2 ^ a * Zpos m / 2 ^ n) m2);
        try (apply Z.pow_pos_nonneg; lia); try lia; try assumption; reflexivity. }
    lia.
Qed.

Lemma ns_green_is_exact_floor_or_one_more_witness :
  exists exact ns_green ew_green : Z,
    exact_product_floor (26 - 6) lit_0_7 = Some exact /\
    bayesian_optimization.green_times 26 lit_0_7 = Ok (ns_green, ew_green) /\
    (ns_green = exact \/ ns_green = exact + 1).
Proof.
  apply (ns_green_is_exact_floor_or_one_more 26 lit_0_7); [lia | reflexivity ..].
Defined.

(** Both cases occur: 15 * 0.3 is truncated to the exact floor 4, and
    20 * 0.7 is rounded to 14.0 although the exact product is below 14. *)
Example ns_green_exact_and_carried :
  exact_product_floor 15 lit_0_3 = Some 4 /\
  bayesian_optimization.green_times 21 lit_0_3 = Ok (4, 11) /\
  exact_product_floor 20 lit_0_7 = Some 13 /\
  bayesian_optimization.green_times 26 lit_0_7 = Ok (14, 6).
Proof. repeat split; reflexivity. Qed.

Lemma share_arith g m twoa twob twon K q m2 :
  0 <= g -> 0 < m -> 0 < twoa -> 0 < twob -> 0 < twon -> 16 <= K ->
  twoa * twob = twon * K ->
  q = (g * twoa * m) / twon ->
  q <= m2 <= q + 1 ->
  10 * m <= 7 * twob -> 3 * twob - 2 <= 10 * m -> 2 * g < twob ->
  3 * g - 10 <= 10 * (m2 / K) <= 7 * g.
Proof.
  intros Hg Hm Ha Hb Hn HK HA Hq Hm2 Hhi Hlo Hsmall.
  pose proof (bracket_arith g m twoa twob twon K q m2 Hg Hm Ha Hb Hn ltac:(lia) HA Hq Hm2)
    as [HF _].
  split.
  - (* the exact floor is already above 0.3 g - 1 *)
    pose proof (Z.mul_succ_div_gt (g * m) twob Hb) as Hgt.
    assert (H1 : 0 <= g * (10 * m - (3 * twob - 2))) by (apply Z.mul_nonneg_nonneg; lia).
    assert (H2 : (3 * g - 1) * twob < 10 * Z.succ (g * m / twob) * twob) by nia.
    assert (H3 : 3 * g - 1 < 10 * Z.succ (g * m / twob)).
    { apply Z.mul_lt_mono_pos_r with twob; assumption. }
    lia.
  - pose proof (Z.mul_div_le (g * twoa * m) twon Hn) as Hq1. rewrite <- Hq in Hq1.
    assert (Hq10 : 10 * q <= 7 * g * K).
    { apply Z.mul_le_mono_pos_l with twon; [exact Hn|].
      replace (twon * (7 * g * K)) with (7 * g * (twoa * twob)) by (rewrite HA; ring).
      assert (H : 0 <= g * twoa) by (apply Z.mul_nonneg_nonneg; lia).
      pose proof (Z.mul_le_mono_nonneg_l _ _ (g * twoa) H Hhi) as Hp.
      replace (twon * (10 * q)) with (10 * (twon * q)) by ring.
      replace (7 * g * (twoa * twob)) with (g * twoa * (7 * twob)) by ring.
      replace (g * twoa * (10 * m)) with (10 * (g * twoa * m)) in Hp by ring.
      lia. }
    pose proof (Z.mul_div_le m2 K ltac:(lia)) as HnsK.
    assert (H4 : 10 * (m2 / K) * K < (7 * g + 1) * K) by nia.
    assert (H5 : 10 * (m2 / K) < 7 * g + 1).
    { apply Z.mul_lt_mono_pos_r with K; [lia | exact H4]. }
    lia.
Qed.

(** X2. On the parameter domain each direction gets its share of the green
    time up to one second: ten times the north-south green lies between
    [3 * green - 10] and [7 * green], ten times the east-west green between
    [3 * green] and [7 * green + 10]. *)
Theorem green_shares_within_ratio_bounds :
  forall (cycle_length : Z) (ns_green_ratio : f64),
    20 <= cycle_length <= 120 ->
    valid ns_green_ratio = true ->
    leb lit_0_3 ns_green_ratio = true -> leb ns_green_ratio lit_0_7 = true ->
    exists ns_green ew_green : Z,
      bayesian_optimization.green_times cycle_length ns_green_ratio
        = Ok (ns_green, ew_green) /\
      3 * (cycle_length - 6) - 10 <= 10 * ns_green <= 7 * (cycle_length - 6) /\
      3 * (cycle_length - 6) <= 10 * ew_green <= 7 * (cycle_length - 6) + 10.
Proof.
  intros c r Hc Hv Hlo Hhi.
  destruct (ratio_range r Hv Hlo Hhi) as (m & e & -> & Hm & He).
  assert (He' : e = -54 \/ e = -53) by (destruct He as [[? _] | [? _]]; auto).
  destruct (green_times_rounded c m e Hc Hm He')
    as (a & n & k & m2 & Ha & Hn & Hk & HA & Hm2 & Hg & _).
  exists (m2 / 2 ^ k), (c - 6 - m2 / 2 ^ k). split; [exact Hg|].
  assert (Hns : 3 * (c - 6) - 10 <= 10 * (m2 / 2 ^ k) <= 7 * (c - 6)).
  { apply (share_arith (c - 6) (Zpos m) (2 ^ a) (2 ^ (- e)) (2 ^ n) (2 ^ k)
             ((c - 6) * 2 ^ a * Zpos m / 2 ^ n) m2);
      try (apply Z.pow_pos_nonneg; lia); try assumption; try reflexivity; try lia.
    - change 16 with (2 ^ 4). apply Z.pow_le_mono_r; lia.
    - rewrite pow2_52, pow2_53 in Hm. destruct He as [[-> He] | [-> He]].
      + change (- -54) with 54. rewrite pow2_54. lia.
      + change (- -53) with 53. rewrite pow2_53. lia.
    - rewrite pow2_52, pow2_53 in Hm. destruct He as [[-> He] | [-> He]].
      + change (- -54) with 54. rewrite pow2_54. lia.
      + change (- -53) with 53. rewrite pow2_53. lia.
    - destruct He as [[-> He] | [-> He]].
      + change (- -54) with 54. rewrite pow2_54. lia.
      + change (- -53) with 53. rewrite pow2_53. lia. }
  lia.
Qed.

Lemma green_shares_within_ratio_bounds_witness :
  exists ns_green ew_green : Z,
    bayesian_optimization.green_times 120 lit_0_3 = Ok (ns_green, ew_green) /\
    3 * (120 - 6) - 10 <= 10 * ns_green <= 7 * (120 - 6) /\
    3 * (120 - 6) <= 10 * ew_green <= 7 * (120 - 6) + 10.
Proof.
  apply (green_shares_within_ratio_bounds 120 lit_0_3); [lia | reflexivity ..].
Defined.

(** ** What [generate_tl_program] does outside the parameter domain *)

Lemma binary_round_small s p :
  Zpos p < 2 ^ 53 ->
  exists x e, binary_round prec emax s p 0 = S754_finite s x e.
Proof.
  intros Hp. set (d := Z.log2 (Zpos p) + 1).
  assert (Hd : 1 <= d <= 53).
  { unfold d. pose proof (Z.log2_nonneg (Z.pos p)).
    assert (Z.log2 (Z.pos p) < 53) by (apply Z.log2_lt_pow2; lia). lia. }
  unfold binary_round. rewrite digits2_pos_log2. fold d.
  replace (d + 0) with d by lia. rewrite fexp_normal by lia.
  unfold shl_align.
  destruct (d - 53 - 0) as [| k | k] eqn:Hk; try lia.
  - exists p, 0. apply binary_round_aux_exact; fold d; lia.
  - exists (Pos.iter xO p k), (d - 53).
    apply binary_round_aux_exact; [| lia].
    rewrite pos_iter_xO, Z.log2_mul_pow2 by lia. fold d. lia.
Qed.

(** An int of less than 54 bits converts to zero or to a finite double. *)
Lemma of_Z_finite z :
  - 2 ^ 53 < z < 2 ^ 53 ->
  (z = 0 /\ of_Z z = S754_zero false) \/
  (z <> 0 /\ exists s x e, of_Z z = S754_finite s x e).
Proof.
  intros Hz. destruct z as [| p | p].
  - left. split; reflexivity.
  - right. split; [discriminate|].
    destruct (binary_round_small false p) as (x & e & Hx); [lia|].
    exists false, x, e. exact Hx.
  - right. split; [discriminate|].
    destruct (binary_round_small true p) as (x & e & Hx); [lia|].
    exists true, x, e. exact Hx.
Qed.

(** X3. A ratio that is not a number or is infinite is not validated but
    stops the generation. For a cycle length whose green time is below
    2^53 in absolute value (so that it converts to a double exactly): with
    NaN the plan generation raises [ValueError], with an infinite ratio
    [OverflowError] ([ValueError] when the green time is zero, as 0 * inf
    is NaN). Nothing is written, and [objective_function] raises the same
    exception whatever the simulator. *)
Theorem generate_tl_program_rejects_nan_and_infinity :
  forall (cycle_length : Z) (file_path : string) (w : files),
    - 2 ^ 53 < cycle_length - 6 < 2 ^ 53 ->
    bayesian_optimization.generate_tl_program cycle_length S754_nan file_path w
      = Raise ValueError /\
    (forall s,
       bayesian_optimization.generate_tl_program cycle_length (S754_infinity s) file_path w
       = Raise (if decide (cycle_length = 6) then ValueError else OverflowError)) /\
    (forall (T : Traci) (N : Numeric),
       bayesian_optimization.objective_function (cycle_length, S754_nan) w
         = Raise ValueError /\
       forall s,
         bayesian_optimization.objective_function (cycle_length, S754_infinity s) w
         = Raise (if decide (cycle_length = 6) then ValueError else OverflowError)).
Proof.
  intros c p w Hc.
  assert (Hnan : forall p' w', bayesian_optimization.generate_tl_program c S754_nan p' w'
                               = Raise ValueError).
  { intros p' w'.
    unfold bayesian_optimization.generate_tl_program, bayesian_optimization.green_times,
      mul_int_float, float_of_int.
    destruct (of_Z_finite (c - 6) Hc) as [[_ ->] | [_ (s & x & e & ->)]]; reflexivity. }
  assert (Hinf : forall s p' w',
             bayesian_optimization.generate_tl_program c (S754_infinity s) p' w'
             = Raise (if decide (c = 6) then ValueError else OverflowError)).
  { intros s p' w'.
    unfold bayesian_optimization.generate_tl_program, bayesian_optimization.green_times,
      mul_int_float, float_of_int.
    destruct (of_Z_finite (c - 6) Hc) as [[Hz ->] | [Hnz (s' & x & e & ->)]].
    - destruct (decide (c = 6)); [reflexivity | lia].
    - destruct (decide (c = 6)); [lia | reflexivity]. }
  split; [apply Hnan|]. split; [intros s; apply Hinf|].
  intros T N. split; [| intros s];
    unfold bayesian_optimization.objective_function; [rewrite Hnan | rewrite Hinf];
    reflexivity.
Qed.

Lemma generate_tl_program_rejects_nan_and_infinity_witness :
  bayesian_optimization.generate_tl_program 60 S754_nan "temp_tls.add.xml" ∅
    = Raise ValueError /\
  bayesian_optimization.generate_tl_program 60 (S754_infinity false) "temp_tls.add.xml" ∅
    = Raise OverflowError.
Proof.
  destruct (generate_tl_program_rejects_nan_and_infinity 60 "temp_tls.add.xml" ∅)
    as (Hnan & Hinf & _).
  - split; reflexivity.
  - split; [exact Hnan | exact (Hinf false)].
Defined.

(** X4. Whatever the parameters, a plan generation that returns has written
    to [file_path] a document that parses back as the plan with durations
    [ns, 3, ew, 3] where [ns + ew + 6] is the cycle length, and has left
    every other file as it was. The durations are not checked: below a
    cycle of 6 seconds a negative one is written. *)
Theorem generate_tl_program_writes_one_file :
  forall (cycle_length : Z) (ns_green_ratio : f64) (file_path : string) (w w' : files),
    bayesian_optimization.generate_tl_program cycle_length ns_green_ratio file_path w
      = Ok w' ->
    exists ns_green ew_green : Z,
      ns_green + ew_green + 6 = cycle_length /\
      ET.parse w' file_path
        = Ok (bayesian_optimization.tl_document ns_green ew_green) /\
      Forall (fun tl => phase_durations tl
                = [Some (py_str ns_green); Some "3"; Some (py_str ew_green); Some "3"]%string)
             (ET.children (bayesian_optimization.tl_document ns_green ew_green)) /\
      forall other : string, other <> file_path -> w' !! other = w !! other.
Proof.
  intros c r p w w'.
  unfold bayesian_optimization.generate_tl_program, bayesian_optimization.green_times.
  destruct (mul_int_float (c - 6) r) as [product | e]; cbn [mbind result_bind];
    [| discriminate].
  destruct (int_of_float product) as [ns | e]; cbn [mbind result_bind]; [| discriminate].
  intros [= <-]. exists ns, (c - 6 - ns).
  split; [lia|]. split.
  - unfold ET.parse, ET.write. rewrite lookup_insert_eq. reflexivity.
  - split; [apply tl_document_durations|].
    intros other Hne. unfold ET.write. apply lookup_insert_ne. congruence.
Qed.

Lemma generate_tl_program_writes_one_file_witness :
  exists ns_green ew_green : Z,
    ns_green + ew_green + 6 = 5 /\
    ET.parse (<["temp_tls.add.xml"%string :=
                 ET.XmlFile (bayesian_optimization.tl_document 0 (-1))]> Fixture.two_trips)
             "temp_tls.add.xml"
      = Ok (bayesian_optimization.tl_document ns_green ew_green) /\
    Forall (fun tl => phase_durations tl
              = [Some (py_str ns_green); Some "3"; Some (py_str ew_green); Some "3"]%string)
           (ET.children (bayesian_optimization.tl_document ns_green ew_green)) /\
    forall other : string, other <> "temp_tls.add.xml"%string ->
      (<["temp_tls.add.xml"%string :=
          ET.XmlFile (bayesian_optimization.tl_document 0 (-1))]> Fixture.two_trips) !! other
      = Fixture.two_trips !! other.
Proof.
  apply (generate_tl_program_writes_one_file 5 lit_0_3 "temp_tls.add.xml"
           Fixture.two_trips).
  reflexivity.
Defined.

(** ** The shape of the plan document *)

Lemma tl_document_children ns ew tl :
  tl ∈ ET.children (bayesian_optimization.tl_document ns ew) ->
  exists i j, tl = bayesian_optimization.tl_logic i j ns ew.
Proof.
  intros Hin. cbn in Hin.
  repeat (apply elem_of_cons in Hin as [-> | Hin]; [eauto|]).
  apply elem_of_nil in Hin. destruct Hin.
Qed.

Lemma generate_tl_program_document c r p w w' :
  bayesian_optimization.generate_tl_program c r p w = Ok w' ->
  exists ns ew, ET.parse w' p = Ok (bayesian_optimization.tl_document ns ew).
Proof.
  unfold bayesian_optimization.generate_tl_program.
  destruct (bayesian_optimization.green_times c r) as [[ns ew] | e];
    cbn [mbind result_bind]; [| discriminate].
  intros [= <-]. exists ns, ew. unfold ET.parse, ET.write.
  rewrite lookup_insert_eq. reflexivity.
Qed.

(** X5. In every plan [generate_tl_program] writes, the four phases of each
    intersection are conflict-free: the state strings have 16 signals each,
    every signal is green in exactly one of the two green phases, and each
    yellow phase turns yellow exactly the signals that were green before. *)
Theorem generated_phases_never_conflict :
  forall (cycle_length : Z) (ns_green_ratio : f64) (file_path : string) (w w' : files),
    bayesian_optimization.generate_tl_program cycle_length ns_green_ratio file_path w
      = Ok w' ->
    exists root,
      ET.parse w' file_path = Ok root /\
      forall tl, tl ∈ ET.children root ->
      exists ns_green ns_yellow ew_green ew_yellow : string,
        phase_states tl
          = [Some ns_green; Some ns_yellow; Some ew_green; Some ew_yellow] /\
        String.length ns_green = 16%nat /\ String.length ns_yellow = 16%nat /\
        String.length ew_green = 16%nat /\ String.length ew_yellow = 16%nat /\
        forall i : nat, (i < 16)%nat ->
          green_at ns_green i = negb (green_at ew_green i) /\
          yellow_at ns_yellow i = green_at ns_green i /\
          yellow_at ew_yellow i = green_at ew_green i /\
          green_at ns_yellow i = false /\ green_at ew_yellow i = false.
Proof.
  intros c r p w w' Hgen.
  destruct (generate_tl_program_document c r p w w' Hgen) as (ns & ew & Hdoc).
  exists (bayesian_optimization.tl_document ns ew). split; [exact Hdoc|].
  intros tl Htl. apply tl_document_children in Htl as (i & j & ->).
  exists "GGggrrrrGGggrrrr"%string, "yyyyrrrryyyyrrrr"%string,
         "rrrrGGggrrrrGGgg"%string, "rrrryyyyrrrryyyy"%string.
  repeat (split; [reflexivity|]).
  intros k Hk.
  do 16 (destruct k as [| k]; [repeat split; reflexivity|]). lia.
Qed.

Lemma generated_phases_never_conflict_witness :
  exists root,
    ET.parse (<["plan_resilient.add.xml"%string :=
                 ET.XmlFile (bayesian_optimization.tl_document 27 27)]> ∅)
      "plan_resilient.add.xml" = Ok root /\
    forall tl, tl ∈ ET.children root ->
    exists ns_green ns_yellow ew_green ew_yellow : string,
      phase_states tl
        = [Some ns_green; Some ns_yellow; Some ew_green; Some ew_yellow] /\
      String.length ns_green = 16%nat /\ String.length ns_yellow = 16%nat /\
      String.length ew_green = 16%nat /\ String.length ew_yellow = 16%nat /\
      forall i : nat, (i < 16)%nat ->
        green_at ns_green i = negb (green_at ew_green i) /\
        yellow_at ns_yellow i = green_at ns_green i /\
        yellow_at ew_yellow i = green_at ew_green i /\
        green_at ns_yellow i = false /\ green_at ew_yellow i = false.
Proof.
  apply (generated_phases_never_conflict 60 lit_0_5 "plan_resilient.add.xml" ∅).
  reflexivity.
Defined.

(** X6. Every plan written holds exactly the nine intersections [J_0_0] to
    [J_2_2] of the grid, each once and in row order, all of them static
    programs named [bo_plan] with offset 0 and with the same four phases:
    no intersection is timed differently from another. *)
Theorem generated_plan_covers_grid_uniformly :
  forall (cycle_length : Z) (ns_green_ratio : f64) (file_path : string) (w w' : files),
    bayesian_optimization.generate_tl_program cycle_length ns_green_ratio file_path w
      = Ok w' ->
    exists root,
      ET.parse w' file_path = Ok root /\
      ET.tag root = "additional"%string /\
      map (fun tl => ET.get tl "id") (ET.children root)
        = map Some ["J_0_0"; "J_0_1"; "J_0_2"; "J_1_0"; "J_1_1"; "J_1_2";
                    "J_2_0"; "J_2_1"; "J_2_2"]%string /\
      NoDup (map (fun tl => ET.get tl "id") (ET.children root)) /\
      (forall tl, tl ∈ ET.children root ->
         ET.tag tl = "tlLogic"%string /\
         ET.get tl "type" = Some "static"%string /\
         ET.get tl "programID" = Some "bo_plan"%string /\
         ET.get tl "offset" = Some "0"%string /\
         length (ET.findall tl "phase") = 4%nat) /\
      (forall tl1 tl2, tl1 ∈ ET.children root -> tl2 ∈ ET.children root ->
         ET.children tl1 = ET.children tl2).
Proof.
  intros c r p w w' Hgen.
  destruct (generate_tl_program_document c r p w w' Hgen) as (ns & ew & Hdoc).
  exists (bayesian_optimization.tl_document ns ew). split; [exact Hdoc|].
  split; [reflexivity|]. split; [reflexivity|]. split.
  - rewrite tl_document_intersections.
    apply (bool_decide_unpack _). vm_compute. reflexivity.
  - split.
    + intros tl Htl. apply tl_document_children in Htl as (i & j & ->).
      repeat split; reflexivity.
    + intros tl1 tl2 H1 H2.
      apply tl_document_children in H1 as (i1 & j1 & ->).
      apply tl_document_children in H2 as (i2 & j2 & ->). reflexivity.
Qed.

Lemma generated_plan_covers_grid_uniformly_witness :
  exists root,
    ET.parse (<["temp_tls.add.xml"%string :=
                 ET.XmlFile (bayesian_optimization.tl_document 4 11)]> ∅)
      "temp_tls.add.xml" = Ok root /\
    ET.tag root = "additional"%string /\
    map (fun tl => ET.get tl "id") (ET.children root)
      = map Some ["J_0_0"; "J_0_1"; "J_0_2"; "J_1_0"; "J_1_1"; "J_1_2";
                  "J_2_0"; "J_2_1"; "J_2_2"]%string /\
    NoDup (map (fun tl => ET.get tl "id") (ET.children root)) /\
    (forall tl, tl ∈ ET.children root ->
       ET.tag tl = "tlLogic"%string /\
       ET.get tl "type" = Some "static"%string /\
       ET.get tl "programID" = Some "bo_plan"%string /\
       ET.get tl "offset" = Some "0"%string /\
       length (ET.findall tl "phase") = 4%nat) /\
    (forall tl1 tl2, tl1 ∈ ET.children root -> tl2 ∈ ET.children root ->
       ET.children tl1 = ET.children tl2).
Proof.
  apply (generated_plan_covers_grid_uniformly 21 lit_0_3 "temp_tls.add.xml" ∅).
  reflexivity.
Defined.

(** ** The stepping loops, step by step *)

Section LoopSteps.
Context {T : Traci}.

Lemma evaluation_loop_unfold step calls s :
  final_evaluation.evaluation_loop step calls s =
  if Z_lt_dec 0 (getMinExpectedNumber s) then
    if Z_lt_dec step final_evaluation.MAX_SIM_STEPS then
      match simulationStep s with
      | Ok s' => final_evaluation.evaluation_loop (step + 1) (S calls) s'
      | Raise e => Episode T (Raise e) step (S calls)
      end
    else Episode T (Ok s) step calls
  else Episode T (Ok s) step calls.
Proof.
  funelim (final_evaluation.evaluation_loop step calls s);
    repeat (first [rewrite Heq | rewrite Heq0 | rewrite Heq1]); reflexivity.
Qed.

Lemma simulation_loop_unfold step calls s :
  bayesian_optimization.simulation_loop step calls s =
  if Z_lt_dec step bayesian_optimization.MAX_SIM_STEPS then
    match simulationStep s with
    | Ok s' =>
        if (getMinExpectedNumber s' =? 0) && (100 <? step)
        then Episode T (Ok s') step (S calls)
        else bayesian_optimization.simulation_loop (step + 1) (S calls) s'
    | Raise e => Episode T (Raise e) step (S calls)
    end
  else Episode T (Ok s) step calls.
Proof.
  funelim (bayesian_optimization.simulation_loop step calls s);
    repeat (first [rewrite Heq | rewrite Heq0 | rewrite Heq1]); reflexivity.
Qed.

Lemma run_steps_succ k s s' :
  simulationStep s = Ok s' -> run_steps (S k) s = run_steps k s'.
Proof. intros Hs. cbn [run_steps]. rewrite Hs. reflexivity. Qed.

Lemma run_steps_first k s sk :
  run_steps (S k) s = Ok sk -> exists s', simulationStep s = Ok s' /\ run_steps k s' = Ok sk.
Proof.
  cbn [run_steps]. destruct (simulationStep s) as [s' | e]; [| discriminate].
  intros Hk. exists s'. split; [reflexivity | exact Hk].
Qed.

Lemma evaluation_loop_run k : forall step calls s sk,
  step + Z.of_nat k <= final_evaluation.MAX_SIM_STEPS ->
  run_steps k s = Ok sk ->
  (forall j sj, (j < k)%nat -> run_steps j s = Ok sj -> 0 < getMinExpectedNumber sj) ->
  getMinExpectedNumber sk <= 0 \/ step + Z.of_nat k = final_evaluation.MAX_SIM_STEPS ->
  final_evaluation.evaluation_loop step calls s
  = Episode T (Ok sk) (step + Z.of_nat k) (calls + k).
Proof.
  induction k as [| k IH]; intros step calls s sk Hle Hrun Hbusy Hend;
    rewrite evaluation_loop_unfold.
  - injection Hrun as <-. replace (step + Z.of_nat 0) with step by lia.
    replace (calls + 0)%nat with calls by lia.
    destruct (Z_lt_dec 0 (getMinExpectedNumber s)); [| reflexivity].
    destruct (Z_lt_dec step final_evaluation.MAX_SIM_STEPS); [lia | reflexivity].
  - pose proof (Hbusy 0%nat s ltac:(lia) eq_refl) as Hpos.
    destruct (run_steps_first k s sk Hrun) as (s' & Hs' & Hrun').
    destruct (Z_lt_dec 0 (getMinExpectedNumber s)); [| lia].
    destruct (Z_lt_dec step final_evaluation.MAX_SIM_STEPS); [| lia].
    rewrite Hs'. rewrite (IH (step + 1) (S calls) s' sk); try assumption; try lia.
    + f_equal; lia.
    + intros j sj Hj Hsj. apply (Hbusy (S j) sj); [lia|].
      rewrite (run_steps_succ j s s' Hs'). exact Hsj.
Qed.

Lemma simulation_loop_run k : forall step calls s sk,
  0 <= step -> step + Z.of_nat (S k) <= bayesian_optimization.MAX_SIM_STEPS ->
  run_steps (S k) s = Ok sk ->
  (forall j sj, (1 <= j <= k)%nat -> run_steps j s = Ok sj ->
     100 < step + Z.of_nat j - 1 -> getMinExpectedNumber sj <> 0) ->
  (getMinExpectedNumber sk = 0 /\ 100 < step + Z.of_nat k) \/
  (step + Z.of_nat (S k) = bayesian_optimization.MAX_SIM_STEPS) ->
  bayesian_optimization.simulation_loop step calls s
  = Episode T (Ok sk)
      (if (getMinExpectedNumber sk =? 0) && (100 <? step + Z.of_nat k)
       then step + Z.of_nat k else step + Z.of_nat (S k))
      (calls + S k).
Proof.
  induction k as [| k IH]; intros step calls s sk Hstep Hle Hrun Hbusy Hend;
    rewrite simulation_loop_unfold;
    destruct (run_steps_first _ s sk Hrun) as (s' & Hs' & Hrun');
    (destruct (Z_lt_dec step bayesian_optimization.MAX_SIM_STEPS); [| lia]);
    rewrite Hs'.
  - injection Hrun' as <-. replace (step + Z.of_nat 0) with step by lia.
    replace (calls + 1)%nat with (S calls) by lia.
    destruct ((getMinExpectedNumber s' =? 0) && (100 <? step)) eqn:Hbrk; [reflexivity|].
    destruct Hend as [[Hz Hs] | Hmax].
    + apply andb_false_iff in Hbrk as [Hbrk | Hbrk]; [apply Z.eqb_neq in Hbrk | apply Z.ltb_ge in Hbrk]; lia.
    + rewrite simulation_loop_unfold.
      destruct (Z_lt_dec (step + 1) bayesian_optimization.MAX_SIM_STEPS); [lia|].
      f_equal; lia.
  - assert (Hne : (getMinExpectedNumber s' =? 0) && (100 <? step) = false).
    { destruct (100 <? step) eqn:Hs; [| apply andb_false_r].
      apply Z.ltb_lt in Hs. rewrite andb_true_r. apply Z.eqb_neq.
      apply (Hbusy 1%nat s'); [lia | | lia].
      rewrite (run_steps_succ 0 s s' Hs'). reflexivity. }
    rewrite Hne.
    rewrite (IH (step + 1) (S calls) s' sk); try lia; try assumption.
    + replace (step + 1 + Z.of_nat k) with (step + Z.of_nat (S k)) by lia.
      replace (step + 1 + Z.of_nat (S k)) with (step + Z.of_nat (S (S k))) by lia.
      f_equal; lia.
    + intros j sj Hj Hsj Hs. apply (Hbusy (S j) sj); [lia | | lia].
      rewrite (run_steps_succ j s s' Hs'). exact Hsj.
Qed.

Lemma evaluation_loop_calls_ge step calls s :
  (calls <= ep_calls (final_evaluation.evaluation_loop step calls s))%nat.
Proof.
  funelim (final_evaluation.evaluation_loop step calls s); cbn [ep_calls]; lia.
Qed.

Lemma simulation_loop_calls_ge step calls s :
  (calls <= ep_calls (bayesian_optimization.simulation_loop step calls s))%nat.
Proof.
  funelim (bayesian_optimization.simulation_loop step calls s); cbn [ep_calls]; lia.
Qed.

Lemma evaluation_loop_trace step calls s :
  let ep := final_evaluation.evaluation_loop step calls s in
  run_steps (ep_calls ep - calls) s = ep_session ep /\
  forall sk, ep_session ep = Ok sk ->
    Z.of_nat (ep_calls ep) - Z.of_nat calls = ep_step ep - step /\
    (getMinExpectedNumber sk <= 0 \/ final_evaluation.MAX_SIM_STEPS <= ep_step ep).
Proof.
  cbn zeta.
  funelim (final_evaluation.evaluation_loop step calls s);
    cbn [ep_calls ep_session ep_step].
  - rewrite Nat.sub_diag. split; [reflexivity|]. intros sk [= <-]. lia.
  - rewrite Nat.sub_diag. split; [reflexivity|]. intros sk [= <-]. lia.
  - pose proof (evaluation_loop_calls_ge (step + 1) (S calls) s') as Hge.
    match goal with IH : _ /\ _ |- _ => destruct IH as [IH1 IH2] end.
    split.
    + replace (ep_calls (final_evaluation.evaluation_loop (step + 1) (S calls) s') - calls)%nat
        with (S (ep_calls (final_evaluation.evaluation_loop (step + 1) (S calls) s')
                 - S calls)) by lia.
      rewrite (run_steps_succ _ s s') by assumption. exact IH1.
    + intros sk Hsk. specialize (IH2 sk Hsk). lia.
  - replace (S calls - calls)%nat with 1%nat by lia. cbn [run_steps].
    match goal with H : simulationStep s = Raise _ |- _ => rewrite H end.
    split; [reflexivity|]. intros sk Hsk. discriminate.
Qed.

Lemma simulation_loop_trace step calls s :
  let ep := bayesian_optimization.simulation_loop step calls s in
  run_steps (ep_calls ep - calls) s = ep_session ep.
Proof.
  cbn zeta.
  funelim (bayesian_optimization.simulation_loop step calls s);
    cbn [ep_calls ep_session ep_step].
  - rewrite Nat.sub_diag. reflexivity.
  - replace (S calls - calls)%nat with 1%nat by lia. cbn [run_steps].
    match goal with H : simulationStep s = Raise _ |- _ => rewrite H end. reflexivity.
  - replace (S calls - calls)%nat with 1%nat by lia. cbn [run_steps].
    match goal with H : simulationStep s = Ok _ |- _ => rewrite H end. reflexivity.
  - pose proof (simulation_loop_calls_ge (step + 1) (S calls) s') as Hge.
    replace (ep_calls (bayesian_optimization.simulation_loop (step + 1) (S calls) s') - calls)%nat
      with (S (ep_calls (bayesian_optimization.simulation_loop (step + 1) (S calls) s')
               - S calls)) by lia.
    rewrite (run_steps_succ _ s s') by assumption. assumption.
Qed.

Lemma evaluation_loop_raise k : forall step calls s sk e,
  step + Z.of_nat k < final_evaluation.MAX_SIM_STEPS ->
  run_steps k s = Ok sk ->
  (forall j sj, (j <= k)%nat -> run_steps j s = Ok sj -> 0 < getMinExpectedNumber sj) ->
  simulationStep sk = Raise e ->
  final_evaluation.evaluation_loop step calls s
  = Episode T (Raise e) (step + Z.of_nat k) (calls + S k).
Proof.
  induction k as [| k IH]; intros step calls s sk e Hlt Hrun Hbusy Hraise;
    rewrite evaluation_loop_unfold;
    pose proof (Hbusy 0%nat s ltac:(lia) eq_refl) as Hpos;
    (destruct (Z_lt_dec 0 (getMinExpectedNumber s)); [| lia]);
    (destruct (Z_lt_dec step final_evaluation.MAX_SIM_STEPS); [| lia]).
  - injection Hrun as <-. rewrite Hraise. f_equal; lia.
  - destruct (run_steps_first k s sk Hrun) as (s' & Hs' & Hrun').
    rewrite Hs'. rewrite (IH (step + 1) (S calls) s' sk e); try assumption; try lia.
    + f_equal; lia.
    + intros j sj Hj Hsj. apply (Hbusy (S j) sj); [lia|].
      rewrite (run_steps_succ j s s' Hs'). exact Hsj.
Qed.

End LoopSteps.

(** X7. The final-evaluation loop stops at the first state in which the
    simulator expects no vehicle, or at the step budget: if the first [k]
    steps succeed, vehicles are expected before each of them, and after the
    [k]-th none is expected (or [k] is 3600), the loop has made exactly
    [k] steps and ends with [step = k] in the state reached. *)
Theorem evaluation_loop_stops_at_first_empty_state :
  forall (T : Traci) (s0 sk : session) (k : nat),
    (k <= 3600)%nat ->
    run_steps k s0 = Ok sk ->
    (forall j sj, (j < k)%nat -> run_steps j s0 = Ok sj -> 0 < getMinExpectedNumber sj) ->
    getMinExpectedNumber sk <= 0 \/ k = 3600%nat ->
    final_evaluation.evaluation_loop 0 0 s0 = Episode T (Ok sk) (Z.of_nat k) k.
Proof.
  intros T s0 sk k Hk Hrun Hbusy Hend.
  apply (evaluation_loop_run k 0 0%nat s0 sk); try assumption.
  - unfold final_evaluation.MAX_SIM_STEPS. lia.
  - unfold final_evaluation.MAX_SIM_STEPS. lia.
Qed.

Lemma evaluation_loop_stops_at_first_empty_state_witness :
  final_evaluation.evaluation_loop (T := Fixture.countdown 3 Fixture.reports)
    0 0 (3%nat, ""%string)
  = Episode (Fixture.countdown 3 Fixture.reports) (Ok (0%nat, ""%string)) 3 3.
Proof.
  apply (evaluation_loop_stops_at_first_empty_state
           (Fixture.countdown 3 Fixture.reports) (3%nat, ""%string) (0%nat, ""%string) 3).
  - lia.
  - reflexivity.
  - intros j sj Hj.
    destruct j as [| [| [| j]]]; try lia; intros [= <-]; reflexivity.
  - left. cbn. lia.
Defined.

(** X8. The optimisation loop stops at the first step from the 102nd on
    after which the simulator expects no vehicle, or at the step budget:
    if the first [k] steps succeed ([102 <= k <= 3600]), no step from the
    102nd to the one before the [k]-th leaves the simulator empty, and the
    [k]-th does (or [k] is 3600), the loop has made exactly [k] steps.
    Empty states during the first 101 steps are ignored. *)
Theorem simulation_loop_stops_at_first_empty_state_after_settling :
  forall (T : Traci) (s0 sk : session) (k : nat),
    (102 <= k <= 3600)%nat ->
    run_steps k s0 = Ok sk ->
    (forall j sj, (102 <= j < k)%nat -> run_steps j s0 = Ok sj ->
       getMinExpectedNumber sj <> 0) ->
    getMinExpectedNumber sk = 0 \/ k = 3600%nat ->
    bayesian_optimization.simulation_loop 0 0 s0
    = Episode T (Ok sk)
        (if getMinExpectedNumber sk =? 0 then Z.of_nat k - 1 else Z.of_nat k) k.
Proof.
  intros T s0 sk k Hk Hrun Hbusy Hend.
  destruct k as [| k]; [lia|].
  rewrite (simulation_loop_run k 0 0%nat s0 sk); try assumption.
  - destruct (Z.ltb_spec 100 (0 + Z.of_nat k)); [| lia].
    rewrite andb_true_r. destruct (getMinExpectedNumber sk =? 0); f_equal; lia.
  - lia.
  - unfold bayesian_optimization.MAX_SIM_STEPS. lia.
  - intros j sj Hj Hsj Hs. apply (Hbusy j sj); [lia | exact Hsj].
  - unfold bayesian_optimization.MAX_SIM_STEPS. lia.
Qed.

Lemma simulation_loop_stops_at_first_empty_state_after_settling_witness :
  bayesian_optimization.simulation_loop (T := Fixture.countdown 3 Fixture.reports)
    0 0 (3%nat, ""%string)
  = Episode (Fixture.countdown 3 Fixture.reports) (Ok (0%nat, ""%string)) 101 102.
Proof.
  apply (simulation_loop_stops_at_first_empty_state_after_settling
           (Fixture.countdown 3 Fixture.reports) (3%nat, ""%string) (0%nat, ""%string) 102).
  - lia.
  - vm_compute. reflexivity.
  - intros j sj Hj. lia.
  - left. reflexivity.
Defined.

(** X9. A step that raises ends the final evaluation of that plan and
    scenario: if the first [k] steps succeed with vehicles expected
    throughout and the next step raises, the loop has made [k + 1] steps and
    [run_single_evaluation] raises the same exception, without closing the
    session or reading a report. *)
Theorem run_single_evaluation_propagates_step_error :
  forall (T : Traci) (N : Numeric) (scenario_name scenario_cfg plan_name : string)
         (plan_file : option string) (w : files) (s0 sk : session) (k : nat) (e : exn),
    traci_start (final_evaluation.sumo_cmd scenario_cfg plan_file) w = Ok s0 ->
    (k < 3600)%nat ->
    run_steps k s0 = Ok sk ->
    (forall j sj, (j <= k)%nat -> run_steps j s0 = Ok sj -> 0 < getMinExpectedNumber sj) ->
    simulationStep sk = Raise e ->
    final_evaluation.evaluation_loop 0 0 s0 = Episode T (Raise e) (Z.of_nat k) (S k) /\
    final_evaluation.run_single_evaluation scenario_name scenario_cfg plan_name plan_file w
      = Raise e.
Proof.
  intros T N sn cfg pn pf w s0 sk k e Hstart Hk Hrun Hbusy Hraise.
  assert (Hloop : final_evaluation.evaluation_loop 0 0 s0
                  = Episode T (Raise e) (Z.of_nat k) (S k)).
  { apply (evaluation_loop_raise k 0 0%nat s0 sk e); try assumption.
    unfold final_evaluation.MAX_SIM_STEPS. lia. }
  split; [exact Hloop|].
  unfold final_evaluation.run_single_evaluation.
  rewrite Hstart. cbn [mbind result_bind]. rewrite Hloop. reflexivity.
Qed.

Lemma run_single_evaluation_propagates_step_error_witness :
  final_evaluation.evaluation_loop (T := Fixture.crashing 2) 0 0 0%nat
    = Episode (Fixture.crashing 2) (Raise FatalTraCIError) 2 3 /\
  final_evaluation.run_single_evaluation (T := Fixture.crashing 2) (N := Fixture.numeric)
    "Normal" "grid_normal.sumocfg" "Default-SUMO" None ∅ = Raise FatalTraCIError.
Proof.
  apply (run_single_evaluation_propagates_step_error
           (Fixture.crashing 2) Fixture.numeric
           "Normal" "grid_normal.sumocfg" "Default-SUMO" None ∅ 0%nat 2%nat 2).
  - reflexivity.
  - lia.
  - reflexivity.
  - intros j sj Hj Hsj. reflexivity.
  - reflexivity.
Defined.

(** X10. Whatever the simulator does, the outcome of either stepping loop
    is the outcome of exactly [ep_calls] consecutive steps from the initial
    session: no step is skipped or repeated. When the final-evaluation loop
    ends normally it has made as many steps as [step] counts, and the
    simulator expects no vehicle or the budget of 3600 is spent. *)
Theorem stepping_loops_follow_the_simulator :
  forall (T : Traci) (s0 : session),
    run_steps (ep_calls (bayesian_optimization.simulation_loop 0 0 s0)) s0
      = ep_session (bayesian_optimization.simulation_loop 0 0 s0) /\
    run_steps (ep_calls (final_evaluation.evaluation_loop 0 0 s0)) s0
      = ep_session (final_evaluation.evaluation_loop 0 0 s0) /\
    (forall sk,
       ep_session (final_evaluation.evaluation_loop 0 0 s0) = Ok sk ->
       Z.of_nat (ep_calls (final_evaluation.evaluation_loop 0 0 s0))
         = ep_step (final_evaluation.evaluation_loop 0 0 s0) /\
       (getMinExpectedNumber sk <= 0 \/
        ep_step (final_evaluation.evaluation_loop 0 0 s0) = 3600)).
Proof.
  intros T s0. split; [| split].
  - pose proof (simulation_loop_trace 0 0%nat s0) as Htr. cbn zeta in Htr.
    rewrite Nat.sub_0_r in Htr. exact Htr.
  - pose proof (evaluation_loop_trace 0 0%nat s0) as [Htr _]. cbn zeta in Htr.
    rewrite Nat.sub_0_r in Htr. exact Htr.
  - intros sk Hsk.
    pose proof (evaluation_loop_trace 0 0%nat s0) as [_ Hpost].
    destruct (Hpost sk Hsk) as [Hc Hend].
    pose proof (evaluation_loop_calls 0 0%nat s0) as Hle.
    unfold final_evaluation.MAX_SIM_STEPS in *. split; [lia|].
    destruct Hend as [Hz | Hmax]; [left; exact Hz | right; lia].
Qed.

Lemma stepping_loops_follow_the_simulator_witness :
  Z.of_nat (ep_calls (final_evaluation.evaluation_loop
                        (T := Fixture.countdown 3 Fixture.reports) 0 0 (3%nat, ""%string)))
  = ep_step (final_evaluation.evaluation_loop
               (T := Fixture.countdown 3 Fixture.reports) 0 0 (3%nat, ""%string)) /\
  (getMinExpectedNumber (Traci := Fixture.countdown 3 Fixture.reports) (0%nat, ""%string) <= 0 \/
   ep_step (final_evaluation.evaluation_loop
              (T := Fixture.countdown 3 Fixture.reports) 0 0 (3%nat, ""%string)) = 3600).
Proof.
  apply (proj2 (proj2 (stepping_loops_follow_the_simulator
                         (Fixture.countdown 3 Fixture.reports) (3%nat, ""%string)))).
  vm_compute. reflexivity.
Defined.

(** ** Scoring, record by record *)

Section Records.
Context {N : Numeric}.

Lemma comprehension_map {A B C} (f : B -> result C) (g : A -> B) l :
  comprehension (fun x => f (g x)) l = comprehension f (map g l).
Proof.
  induction l as [| x l IH]; [reflexivity|]. cbn [comprehension map].
  rewrite IH. reflexivity.
Qed.

Lemma comprehension_app_raise {A B} (f : A -> result B) before x after e :
  Forall (fun y => exists z, f y = Ok z) before ->
  f x = Raise e ->
  comprehension f (before ++ x :: after) = Raise e.
Proof.
  induction 1 as [| y before [z Hy] _ IH]; intros Hx; cbn.
  - rewrite Hx. reflexivity.
  - rewrite Hy. cbn [mbind result_bind]. rewrite (IH Hx). reflexivity.
Qed.

Lemma reduction_raises penalty w e :
  reduction penalty w = Raise e <->
  exists root, ET.parse w "temp_tripinfo.xml" = Ok root /\ waiting_times root = Raise e.
Proof.
  unfold reduction, ET.parse.
  destruct (w !! "temp_tripinfo.xml"%string) as [[root | c] |].
  - destruct (waiting_times root) as [[| t wt] | e'] eqn:Hw; split;
      try discriminate; try (intros (root' & [= <-] & Hr); congruence).
    intros [= ->]. eauto.
  - split; [discriminate | intros (root' & Hr & _); discriminate].
  - split; [discriminate | intros (root' & Hr & _); discriminate].
Qed.

Lemma reduction_same_records penalty w1 w2 root1 root2 :
  ET.parse w1 "temp_tripinfo.xml" = Ok root1 ->
  ET.parse w2 "temp_tripinfo.xml" = Ok root2 ->
  map (fun trip => ET.get trip "waitingTime") (ET.findall root1 "tripinfo")
  = map (fun trip => ET.get trip "waitingTime") (ET.findall root2 "tripinfo") ->
  reduction penalty w1 = reduction penalty w2.
Proof.
  unfold reduction, ET.parse.
  destruct (w1 !! "temp_tripinfo.xml"%string) as [[r1 | c] |]; try discriminate.
  destruct (w2 !! "temp_tripinfo.xml"%string) as [[r2 | c] |]; try discriminate.
  intros [= ->] [= ->] Hsame.
  unfold waiting_times.
  rewrite (comprehension_map py_float (fun trip => ET.get trip "waitingTime")
             (ET.findall root1 "tripinfo")).
  rewrite (comprehension_map py_float (fun trip => ET.get trip "waitingTime")
             (ET.findall root2 "tripinfo")).
  rewrite Hsame. reflexivity.
Qed.

End Records.

(** X11. Both reductions of a trip report look at nothing but the
    [waitingTime] attributes of the [tripinfo] elements directly under the
    root, in document order: two well-formed reports that agree on those
    get the same score from [objective_function] and the same from
    [run_single_evaluation], whatever other elements, attributes or files
    they differ in. *)
Theorem report_score_depends_on_waiting_times_only :
  forall (N : Numeric) (w1 w2 : files) (root1 root2 : ET.element),
    ET.parse w1 "temp_tripinfo.xml" = Ok root1 ->
    ET.parse w2 "temp_tripinfo.xml" = Ok root2 ->
    map (fun trip => ET.get trip "waitingTime") (ET.findall root1 "tripinfo")
    = map (fun trip => ET.get trip "waitingTime") (ET.findall root2 "tripinfo") ->
    bayesian_optimization.scenario_score w1 = bayesian_optimization.scenario_score w2 /\
    final_evaluation.reduce_report w1 = final_evaluation.reduce_report w2.
Proof.
  intros N w1 w2 root1 root2 H1 H2 Hsame.
  rewrite !scenario_score_reduction, !reduce_report_reduction.
  split; eapply reduction_same_records; eassumption.
Qed.

Lemma report_score_depends_on_waiting_times_only_witness :
  bayesian_optimization.scenario_score (N := Fixture.numeric) Fixture.two_trips
  = bayesian_optimization.scenario_score (N := Fixture.numeric) Fixture.noisy_trips /\
  final_evaluation.reduce_report (N := Fixture.numeric) Fixture.two_trips
  = final_evaluation.reduce_report (N := Fixture.numeric) Fixture.noisy_trips.
Proof.
  eapply (report_score_depends_on_waiting_times_only Fixture.numeric
            Fixture.two_trips Fixture.noisy_trips);
    vm_compute; reflexivity.
Defined.

(** X12. A record the comprehension cannot convert is not scored as a
    failure: when a [tripinfo] has no [waitingTime] the reductions raise
    [TypeError], when [float] rejects its value they raise [ValueError]
    (the records before it being fine), and neither driver catches these.
    No other exception leaves the reductions. *)
Theorem bad_record_raises_instead_of_penalty :
  forall (N : Numeric) (w : files) (root : ET.element)
         (before after : list ET.element) (trip : ET.element),
    ET.parse w "temp_tripinfo.xml" = Ok root ->
    ET.findall root "tripinfo" = before ++ trip :: after ->
    Forall (fun t => exists x, py_float (ET.get t "waitingTime") = Ok x) before ->
    (forall e, py_float (ET.get trip "waitingTime") = Raise e ->
       bayesian_optimization.scenario_score w = Raise e /\
       final_evaluation.reduce_report w = Raise e /\
       (e = TypeError \/ e = ValueError)) /\
    (ET.get trip "waitingTime" = None ->
       bayesian_optimization.scenario_score w = Raise TypeError) /\
    (forall v, ET.get trip "waitingTime" = Some v -> float_of_str v = None ->
       bayesian_optimization.scenario_score w = Raise ValueError).
Proof.
  intros N w root before after trip Hp Hf Hbefore.
  assert (Hraise : forall e, py_float (ET.get trip "waitingTime") = Raise e ->
            waiting_times root = Raise e).
  { intros e He. unfold waiting_times. rewrite Hf.
    apply (comprehension_app_raise
             (fun t => py_float (ET.get t "waitingTime")) before trip after e Hbefore He). }
  assert (Hboth : forall e, py_float (ET.get trip "waitingTime") = Raise e ->
            bayesian_optimization.scenario_score w = Raise e /\
            final_evaluation.reduce_report w = Raise e /\
            (e = TypeError \/ e = ValueError)).
  { intros e He. specialize (Hraise e He).
    rewrite scenario_score_reduction, reduce_report_reduction.
    split; [apply reduction_raises; eauto|].
    split; [apply reduction_raises; eauto|].
    eapply waiting_times_raises, Hraise. }
  split; [exact Hboth|]. split.
  - intros Hnone. apply Hboth. unfold py_float. rewrite Hnone. reflexivity.
  - intros v Hv Hrej. apply Hboth. unfold py_float. rewrite Hv, Hrej. reflexivity.
Qed.

Lemma bad_record_raises_instead_of_penalty_witness :
  bayesian_optimization.scenario_score (N := Fixture.numeric) Fixture.unfinished_trips
  = Raise TypeError.
Proof.
  destruct (bad_record_raises_instead_of_penalty Fixture.numeric
              Fixture.unfinished_trips Fixture.unfinished
              [Fixture.tripinfo "10"] [Fixture.tripinfo "50"]
              (ET.Element "tripinfo" [("id", "veh1")] [])) as (_ & Hnone & _).
  - reflexivity.
  - reflexivity.
  - apply Forall_cons. split; [| constructor]. exists (of_Z 10). reflexivity.
  - apply Hnone. reflexivity.
Defined.

(** ** The objective and the trip report file *)

Lemma reduction_lookup {N : Numeric} penalty (w1 w2 : files) :
  w1 !! "temp_tripinfo.xml"%string = w2 !! "temp_tripinfo.xml"%string ->
  reduction penalty w1 = reduction penalty w2.
Proof. unfold reduction. intros ->. reflexivity. Qed.

Section ObjectiveScores.
Context {T : Traci} {N : Numeric}.

Lemma run_scenario_score tl cfg w score w' :
  bayesian_optimization.run_scenario tl cfg w = Ok (score, w') ->
  exists s, w' = traci_close s w /\ reduction 36000 w' = Ok score.
Proof.
  unfold bayesian_optimization.run_scenario.
  destruct (traci_start _ w) as [s0 | e]; cbn [mbind result_bind]; [| discriminate].
  destruct (ep_session _) as [s | e]; cbn [mbind result_bind]; [| discriminate].
  destruct (bayesian_optimization.scenario_score _) as [a | e] eqn:Ha;
    cbn [mbind result_bind]; [| discriminate].
  intros [= <- <-]. rewrite scenario_score_reduction in Ha. eauto.
Qed.

(** What holds of every file system a session is closed on holds after
    the loop over the scenarios, and every score is that of such a file
    system. *)
Lemma evaluate_scenarios_invariant (P : files -> Prop) (Q : pynum -> Prop) tl scenarios :
  (forall s w, P w -> P (traci_close s w)) ->
  (forall s w a, P w -> reduction 36000 (traci_close s w) = Ok a -> Q a) ->
  forall acc w scores w',
    bayesian_optimization.evaluate_scenarios tl scenarios acc w = Ok (scores, w') ->
    P w -> Forall Q acc -> Forall Q scores.
Proof.
  intros Hclose Hscore.
  induction scenarios as [| cfg rest IH]; intros acc w scores w' He HP Hacc; cbn in He.
  - injection He as <- <-. exact Hacc.
  - destruct (bayesian_optimization.run_scenario tl cfg w) as [[score w1] | e] eqn:Hr;
      cbn [mbind result_bind] in He; [| discriminate].
    destruct (run_scenario_score tl cfg w score w1 Hr) as (s & -> & Hsc).
    apply (IH _ _ _ _ He).
    + apply Hclose, HP.
    + apply Forall_app. split; [exact Hacc|].
      apply Forall_cons. split; [| constructor].
      eapply Hscore; [exact HP | exact Hsc].
Qed.

Lemma objective_function_scores (P : files -> Prop) (Q : pynum -> Prop) c r w res w' :
  (forall s w0, P w0 -> P (traci_close s w0)) ->
  (forall s w0 a, P w0 -> reduction 36000 (traci_close s w0) = Ok a -> Q a) ->
  (forall w1, bayesian_optimization.generate_tl_program c r "temp_tls.add.xml" w = Ok w1 ->
              P w1) ->
  bayesian_optimization.objective_function (c, r) w = Ok (res, w') ->
  Q res.
Proof.
  intros Hclose Hscore Hgen Hobj.
  unfold bayesian_optimization.objective_function in Hobj.
  destruct (bayesian_optimization.generate_tl_program c r _ w) as [w1 | e] eqn:Hg;
    cbn [mbind result_bind] in Hobj; [| discriminate].
  destruct (bayesian_optimization.evaluate_scenarios _ _ [] w1) as [[scores w2] | e] eqn:Hev;
    cbn [mbind result_bind] in Hobj; [| discriminate].
  destruct (py_max scores) as [r' | e] eqn:Hmax; cbn [mbind result_bind] in Hobj;
    [| discriminate].
  injection Hobj as -> ->.
  pose proof (evaluate_scenarios_invariant P Q _ _ Hclose Hscore [] w1 scores w' Hev
                (Hgen w1 eq_refl) (Forall_nil_2 _)) as HQ.
  apply evaluate_scenarios_scores in Hev as [Hsc _]; [| constructor].
  destruct (py_max_spec 36000 scores res Hsc Hmax) as [Hin _].
  rewrite Forall_forall in HQ. apply HQ, Hin.
Qed.

End ObjectiveScores.

(** X13. If the simulator never leaves a usable trip report (closing a
    session always leaves the report absent, malformed or empty), the
    objective is the penalty 36000 for every parameter set it returns
    for. *)
Theorem objective_function_is_penalty_without_reports :
  forall (T : Traci) (N : Numeric) (cycle_length : Z) (ns_green_ratio : f64)
         (w w' : files) (resilience_score : pynum),
    (forall s w0, degenerate_report (traci_close s w0) = true) ->
    bayesian_optimization.objective_function (cycle_length, ns_green_ratio) w
      = Ok (resilience_score, w') ->
    resilience_score = PyInt 36000.
Proof.
  intros T N c r w w' res Hdeg Hobj.
  apply (objective_function_scores
           (fun w0 => True) (fun a => a = PyInt 36000) c r w res w'); auto.
  intros s w0 a _ Ha.
  rewrite (reduction_degenerate 36000 _ (Hdeg s w0)) in Ha. congruence.
Qed.

Lemma objective_function_is_penalty_without_reports_witness :
  exists w',
    bayesian_optimization.objective_function
      (T := Fixture.countdown 3 (fun _ => None)) (N := Fixture.numeric)
      (60, lit_0_5) Fixture.two_trips = Ok (PyInt 36000, w').
Proof.
  destruct (bayesian_optimization.objective_function
              (T := Fixture.countdown 3 (fun _ => None)) (N := Fixture.numeric)
              (60, lit_0_5) Fixture.two_trips) as [[res w'] | e] eqn:Hobj.
  - exists w'. f_equal. f_equal.
    apply (objective_function_is_penalty_without_reports
             (Fixture.countdown 3 (fun _ => None)) Fixture.numeric 60 lit_0_5
             Fixture.two_trips w' res).
    + intros s w0. unfold degenerate_report. cbn [traci_close Fixture.countdown].
      rewrite lookup_delete_eq. reflexivity.
    + exact Hobj.
  - vm_compute in Hobj. discriminate.
Defined.

(** X14. The objective never removes the trip report between episodes: if
    the simulator leaves that file as it is, every scenario is scored on
    the report that was there before the call, and the objective returns
    the score of that stale report. *)
Theorem objective_function_scores_a_stale_report :
  forall (T : Traci) (N : Numeric) (cycle_length : Z) (ns_green_ratio : f64)
         (w w' : files) (resilience_score : pynum),
    (forall s w0, traci_close s w0 !! "temp_tripinfo.xml"%string
                  = w0 !! "temp_tripinfo.xml"%string) ->
    bayesian_optimization.objective_function (cycle_length, ns_green_ratio) w
      = Ok (resilience_score, w') ->
    bayesian_optimization.scenario_score w = Ok resilience_score.
Proof.
  intros T N c r w w' res Hkeep Hobj.
  rewrite scenario_score_reduction.
  apply (objective_function_scores
           (fun w0 => w0 !! "temp_tripinfo.xml"%string = w !! "temp_tripinfo.xml"%string)
           (fun a => reduction 36000 w = Ok a) c r w res w'); auto.
  - intros s w0 Hw0. rewrite Hkeep. exact Hw0.
  - intros s w0 a Hw0 Ha. rewrite <- Ha. apply reduction_lookup.
    rewrite Hkeep. symmetry. exact Hw0.
  - intros w1 Hgen.
    destruct (generate_tl_program_writes_one_file c r _ w w1 Hgen)
      as (ns & ew & _ & _ & _ & Hother).
    apply Hother. discriminate.
Qed.

Lemma objective_function_scores_a_stale_report_witness :
  bayesian_optimization.scenario_score (N := Fixture.numeric) Fixture.two_trips
  = Ok (PyFloat (of_Z 30)).
Proof.
  destruct (bayesian_optimization.objective_function
              (T := Fixture.endless) (N := Fixture.numeric)
              (60, lit_0_5) Fixture.two_trips) as [[res w'] | e] eqn:Hobj.
  - assert (Hres : res = PyFloat (of_Z 30)).
    { vm_compute in Hobj. injection Hobj as <- _. reflexivity. }
    rewrite <- Hres.
    apply (objective_function_scores_a_stale_report
             Fixture.endless Fixture.numeric 60 lit_0_5 Fixture.two_trips w' res).
    + intros s w0. reflexivity.
    + exact Hobj.
  - vm_compute in Hobj. discriminate.
Defined.

(** ** The simulator command lines *)

(** X15. Given a plan file, the final evaluation starts the same simulator
    binary with the same options as the optimisation, in another order.
    Without one ([None], or an empty name, which counts as none) it passes
    no [-a] option, so the simulator's built-in signal programs run. *)
Theorem drivers_launch_the_same_simulation :
  forall (scenario_cfg plan_file : string),
    plan_file <> ""%string ->
    head (final_evaluation.sumo_cmd scenario_cfg (Some plan_file))
      = head (bayesian_optimization.sumo_cmd scenario_cfg plan_file) /\
    cmd_options (final_evaluation.sumo_cmd scenario_cfg (Some plan_file))
      ≡ₚ cmd_options (bayesian_optimization.sumo_cmd scenario_cfg plan_file) /\
    cmd_options (bayesian_optimization.sumo_cmd scenario_cfg plan_file)
      = [("-c", scenario_cfg); ("-a", plan_file);
         ("--tripinfo-output", "temp_tripinfo.xml"); ("--no-warnings", "true")]%string /\
    final_evaluation.sumo_cmd scenario_cfg (Some "")
      = final_evaluation.sumo_cmd scenario_cfg None /\
    forall value : string,
      ("-a"%string, value) ∉ cmd_options (final_evaluation.sumo_cmd scenario_cfg None).
Proof.
  intros cfg p Hp.
  assert (Ht : truthy (Some p) = true) by (destruct p; [congruence | reflexivity]).
  unfold final_evaluation.sumo_cmd. rewrite Ht.
  split; [reflexivity|]. split.
  - cbn. apply Permutation_skip.
    change [("--tripinfo-output", "temp_tripinfo.xml"); ("--no-warnings", "true");
            ("-a", p)]%string
      with ([("--tripinfo-output", "temp_tripinfo.xml"); ("--no-warnings", "true")]%string
            ++ [("-a"%string, p)]).
    rewrite Permutation_app_comm. reflexivity.
  - split; [reflexivity|]. split; [reflexivity|].
    intros value Hin. cbn in Hin.
    repeat (apply elem_of_cons in Hin as [Hin | Hin]; [discriminate|]).
    apply elem_of_nil in Hin. exact Hin.
Qed.

Lemma drivers_launch_the_same_simulation_witness :
  cmd_options (final_evaluation.sumo_cmd "grid_normal.sumocfg"
                 (Some "plan_resilient.add.xml"%string))
  ≡ₚ cmd_options (bayesian_optimization.sumo_cmd "grid_normal.sumocfg"
                    "plan_resilient.add.xml").
Proof.
  apply (drivers_launch_the_same_simulation "grid_normal.sumocfg" "plan_resilient.add.xml").
  discriminate.
Defined.

(** ** The table of the final evaluation *)

Section Table.
Context {T : Traci} {N : Numeric}.

Lemma run_single_evaluation_is_score sn cfg pn pf w a w' :
  final_evaluation.run_single_evaluation sn cfg pn pf w = Ok (a, w') ->
  is_score 3600 a.
Proof.
  unfold final_evaluation.run_single_evaluation.
  destruct (traci_start _ w) as [s0 | e]; cbn [mbind result_bind]; [| discriminate].
  destruct (ep_session _) as [s | e]; cbn [mbind result_bind]; [| discriminate].
  destruct (final_evaluation.reduce_report _) as [x | e] eqn:Hx;
    cbn [mbind result_bind]; [| discriminate].
  intros [= <- <-]. rewrite reduce_report_reduction in Hx.
  eapply reduction_is_score, Hx.
Qed.

Lemma scenario_rows_spec pn pf scenarios : forall results w rows w',
  final_evaluation.scenario_rows pn pf scenarios results w = Ok (rows, w') ->
  exists new,
    rows = results ++ new /\
    map (fun r => (final_evaluation.Plan r, final_evaluation.Scenario r)) new
      = map (fun sc => (pn, fst sc)) scenarios /\
    Forall (fun r => is_score 3600 (final_evaluation.Avg_Wait_Time r)) new.
Proof.
  induction scenarios as [| [sn cfg] rest IH]; intros results w rows w' Hr; cbn in Hr.
  - injection Hr as <- <-. exists []. rewrite app_nil_r.
    split; [reflexivity|]. split; [reflexivity | constructor].
  - destruct (final_evaluation.run_single_evaluation sn cfg pn pf w)
      as [[a w1] | e] eqn:Ha; cbn [mbind result_bind] in Hr; [| discriminate].
    apply IH in Hr as (new & -> & Hkeys & Hsc).
    exists (final_evaluation.Row pn sn a :: new).
    rewrite <- app_assoc. split; [reflexivity|]. split.
    + cbn. rewrite Hkeys. reflexivity.
    + apply Forall_cons. split; [| exact Hsc].
      eapply run_single_evaluation_is_score, Ha.
Qed.

Lemma plan_rows_spec plans : forall results w rows w',
  final_evaluation.plan_rows plans results w = Ok (rows, w') ->
  exists new,
    rows = results ++ new /\
    map (fun r => (final_evaluation.Plan r, final_evaluation.Scenario r)) new
      = (p ← plans; sc ← final_evaluation.SCENARIOS; [(fst p, fst sc)]) /\
    Forall (fun r => is_score 3600 (final_evaluation.Avg_Wait_Time r)) new.
Proof.
  induction plans as [| [pn pf] rest IH]; intros results w rows w' Hr;
    cbn [final_evaluation.plan_rows] in Hr.
  - injection Hr as <- <-. exists []. rewrite app_nil_r.
    split; [reflexivity|]. split; [reflexivity | constructor].
  - destruct (final_evaluation.scenario_rows pn pf final_evaluation.SCENARIOS results w)
      as [[rows1 w1] | e] eqn:H1; cbn [mbind result_bind] in Hr; [| discriminate].
    apply scenario_rows_spec in H1 as (new1 & -> & Hk1 & Hs1).
    apply IH in Hr as (new2 & -> & Hk2 & Hs2).
    exists (new1 ++ new2). rewrite <- app_assoc. split; [reflexivity|]. split.
    + rewrite map_app, Hk1, Hk2. reflexivity.
    + apply Forall_app. split; assumption.
Qed.

End Table.

(** X16. The main block of the final evaluation refuses to run without
    [SUMO_HOME]; otherwise, when no evaluation raises, [results] holds
    exactly nine rows, one for each plan and scenario, plan by plan in the
    order of the registries. No (scenario, plan) pair occurs twice, so the
    pivot has one value per cell, and every value is the penalty 3600 or a
    float mean. *)
Theorem main_fills_the_comparison_table :
  forall (T : Traci) (N : Numeric) (environ : gmap string string) (w : files),
    (environ !! "SUMO_HOME"%string = None ->
     final_evaluation.main environ w
       = inl "please declare environment variable 'SUMO_HOME'"%string) /\
    forall rows w',
      final_evaluation.main environ w = inr (Ok (rows, w')) ->
      is_Some (environ !! "SUMO_HOME"%string) /\
      map (fun r => (final_evaluation.Plan r, final_evaluation.Scenario r)) rows
        = (plan ← ["Default-SUMO"; "Optimized-for-Normal"; "Optimized-for-Resilience"];
           scenario ← ["Normal"; "High-Stress"; "Disrupted"];
           [(plan, scenario)])%string /\
      length rows = 9%nat /\
      NoDup (map (fun r => (final_evaluation.Scenario r, final_evaluation.Plan r)) rows) /\
      Forall (fun r => is_score 3600 (final_evaluation.Avg_Wait_Time r)) rows.
Proof.
  intros T N environ w. unfold final_evaluation.main. split.
  - intros ->. reflexivity.
  - intros rows w' Hmain.
    destruct (environ !! "SUMO_HOME"%string) as [home |]; [| discriminate].
    assert (Hrows : final_evaluation.plan_rows final_evaluation.PLANS [] w = Ok (rows, w'))
      by (injection Hmain; auto).
    apply plan_rows_spec in Hrows as (new & -> & Hkeys & Hsc).
    cbn [app]. change (p ← final_evaluation.PLANS; sc ← final_evaluation.SCENARIOS;
                       [(p.1, sc.1)]) with
      ((plan ← ["Default-SUMO"; "Optimized-for-Normal"; "Optimized-for-Resilience"];
        scenario ← ["Normal"; "High-Stress"; "Disrupted"];
        [(plan, scenario)])%string) in Hkeys.
    split; [eauto|]. split; [exact Hkeys|].
    assert (Hlen : length new = 9%nat).
    { rewrite <- (length_map (fun r => (final_evaluation.Plan r, final_evaluation.Scenario r))),
        Hkeys. reflexivity. }
    split; [exact Hlen|]. split; [| exact Hsc].
    assert (Hswap : map (fun r => (final_evaluation.Scenario r, final_evaluation.Plan r)) new
                    = map (fun ps : string * string => (ps.2, ps.1))
                        (map (fun r => (final_evaluation.Plan r, final_evaluation.Scenario r))
                             new)).
    { rewrite map_map. reflexivity. }
    rewrite Hswap, Hkeys. apply (bool_decide_unpack _). vm_compute. reflexivity.
Qed.

Lemma main_fills_the_comparison_table_witness :
  exists rows w',
    final_evaluation.main (T := Fixture.countdown 3 Fixture.reports) (N := Fixture.numeric)
      {[ "SUMO_HOME"%string := "/usr/share/sumo"%string ]} ∅ = inr (Ok (rows, w')) /\
    length rows = 9%nat /\
    Forall (fun r => is_score 3600 (final_evaluation.Avg_Wait_Time r)) rows.
Proof.
  destruct (final_evaluation.main (T := Fixture.countdown 3 Fixture.reports)
              (N := Fixture.numeric)
              {[ "SUMO_HOME"%string := "/usr/share/sumo"%string ]} ∅)
    as [msg | [[rows w'] | e]] eqn:Hmain.
  - vm_compute in Hmain. discriminate.
  - exists rows, w'. split; [reflexivity|].
    destruct (proj2 (main_fills_the_comparison_table
                       (Fixture.countdown 3 Fixture.reports) Fixture.numeric
                       {[ "SUMO_HOME"%string := "/usr/share/sumo"%string ]} ∅)
                    rows w' Hmain) as (_ & _ & Hlen & _ & Hsc).
    split; [exact Hlen | exact Hsc].
  - vm_compute in Hmain. discriminate.
Defined.
